(** * docket: the [cert cluster] command (cmd/cert-cluster.go)

    A shallow embedding of the command that issues a cluster certificate
    signed by an existing certificate authority, and the properties of
    its specification.

    The command body is modelled as a state-and-error computation over
    an explicit world (file system, clock, entropy, call trace).  The
    packages of Go's standard library that the command calls
    (net.ParseIP, encoding/pem, crypto/x509, crypto/rsa, time, fmt) are
    not part of the repository: their functions are the fields of the
    class [GoLib], and every general theorem holds for all instances. *)

From stdpp Require Import gmap strings list.
From Stdlib Require Import ZArith Strings.Byte Strings.Ascii.

Local Open Scope Z_scope.

(** ** Go values *)

Definition bytes := list byte.

(** Go's [error] values.  [errorString] is what [fmt.Errorf] builds;
    [PathError] is what the [os] package returns from file operations. *)
Inductive error :=
| errorString (s : string)
| PathError (Op Path Err : string).

(** A Go pair [(value, err)] with [err != nil] exclusive of the value. *)
Inductive result (A : Type) :=
| Ok (a : A)
| Err (e : error).
Arguments Ok {A} a.
Arguments Err {A} e.

(** ** Package net: IP addresses

    [net.IP] is a byte slice; [None] is the nil slice. *)

Definition IP := option (list byte).

Definition IPv4len : nat := 4.
Definition IPv6len : nat := 16.

Definition v4InV6Prefix : list byte :=
  [x00; x00; x00; x00; x00; x00; x00; x00; x00; x00; xff; xff].

(** [func IPv4(a, b, c, d byte) IP]: the 16-byte form of an IPv4 address. *)
Definition IPv4 (a b c d : byte) : IP :=
  Some (v4InV6Prefix ++ [a; b; c; d]).

Definition isZeros (p : list byte) : bool :=
  forallb (fun b => Byte.eqb b x00) p.

(** [p[i] == v], for an index within the slice. *)
Definition byte_at (p : list byte) (i : nat) (v : byte) : bool :=
  match p !! i with
  | Some b => Byte.eqb b v
  | None => false
  end.

(** [func (ip IP) To4() IP] *)
Definition To4 (ip : IP) : IP :=
  match ip with
  | None => None
  | Some l =>
      if Nat.eqb (length l) IPv4len then Some l
      else if Nat.eqb (length l) IPv6len
              && isZeros (take 10 l)
              && byte_at l 10 xff
              && byte_at l 11 xff
      then Some (take 4 (drop 12 l))
      else None
  end.

(** [func (ip IP) To16() IP] *)
Definition To16 (ip : IP) : IP :=
  match ip with
  | None => None
  | Some l =>
      if Nat.eqb (length l) IPv4len then
        match l with
        | [a; b; c; d] => IPv4 a b c d
        | _ => None
        end
      else if Nat.eqb (length l) IPv6len then Some l
      else None
  end.

(** [ip != nil] *)
Definition not_nil (ip : IP) : bool :=
  match ip with
  | None => false
  | Some _ => true
  end.

(** ** Package time

    An instant, as seconds since the Unix epoch plus nanoseconds within
    the second. *)

Record Time := { unixSec : Z; nsec : Z }.

(** Go's [int64]: two's complement wrap-around. *)
Definition int64 (z : Z) : Z := (z + 2 ^ 63) mod 2 ^ 64 - 2 ^ 63.

(** [func (t Time) UnixNano() int64] *)
Definition UnixNano (t : Time) : Z :=
  int64 (unixSec t * 1000000000 + nsec t).

(** ** Packages crypto/rsa, crypto/x509/pkix, crypto/x509, encoding/pem *)

Record PublicKey := { N : Z; E : Z }.

Record PrivateKey := {
  PublicKey_of : PublicKey;
  D : Z;
  Primes : list Z
}.

(** [pkix.Name], with the attributes this command sets. *)
Record Name := {
  Organization : list string;
  CommonName : string
}.

Definition Name_zero : Name := {| Organization := []; CommonName := "" |}.

Inductive SignatureAlgorithm :=
| UnknownSignatureAlgorithm
| MD2WithRSA
| MD5WithRSA
| SHA1WithRSA
| SHA256WithRSA
| SHA384WithRSA
| SHA512WithRSA
| DSAWithSHA1
| DSAWithSHA256
| ECDSAWithSHA1
| ECDSAWithSHA256
| ECDSAWithSHA384
| ECDSAWithSHA512.

Inductive PublicKeyAlgorithm :=
| UnknownPublicKeyAlgorithm
| RSA
| DSA
| ECDSA.

(** [x509.KeyUsage] is a bit set: [1 << iota]. *)
Definition KeyUsageDigitalSignature : Z := Z.shiftl 1 0.
Definition KeyUsageContentCommitment : Z := Z.shiftl 1 1.
Definition KeyUsageKeyEncipherment : Z := Z.shiftl 1 2.
Definition KeyUsageDataEncipherment : Z := Z.shiftl 1 3.
Definition KeyUsageKeyAgreement : Z := Z.shiftl 1 4.
Definition KeyUsageCertSign : Z := Z.shiftl 1 5.
Definition KeyUsageCRLSign : Z := Z.shiftl 1 6.
Definition KeyUsageEncipherOnly : Z := Z.shiftl 1 7.
Definition KeyUsageDecipherOnly : Z := Z.shiftl 1 8.

Inductive ExtKeyUsage :=
| ExtKeyUsageAny
| ExtKeyUsageServerAuth
| ExtKeyUsageClientAuth
| ExtKeyUsageCodeSigning
| ExtKeyUsageEmailProtection
| ExtKeyUsageTimeStamping
| ExtKeyUsageOCSPSigning.

(** [x509.Certificate]: the fields the command sets in its template,
    and those of a parsed certificate that issuing and verifying use.
    [PublicKey] and [SerialNumber] are pointers: [None] is nil. *)
Record Certificate := {
  RawTBSCertificate : bytes;
  Signature : bytes;
  SignatureAlgorithm_of : SignatureAlgorithm;
  PublicKeyAlgorithm_of : PublicKeyAlgorithm;
  PublicKey_in : option PublicKey;
  SerialNumber : option Z;
  Issuer : Name;
  Subject : Name;
  NotBefore : Time;
  NotAfter : Time;
  KeyUsage : Z;
  ExtKeyUsage_of : list ExtKeyUsage;
  BasicConstraintsValid : bool;
  IsCA : bool;
  DNSNames : list string;
  IPAddresses : list IP
}.

(** [pem.Block] *)
Record Block := {
  Type_ : string;
  Headers : list (string * string);
  Bytes : bytes
}.

(** ** The standard library, as the command sees it

    [Rand] is the state of [crypto/rand.Reader].  [CheckSignature] is
    [func (c *Certificate) CheckSignature(algo, signed, signature) error];
    the command does not call it, the specification speaks of it. *)
Class GoLib := {
  Rand : Type;
  ParseIP : string -> IP;
  AddDate : Time -> Z -> Z -> Z -> Time;
  pem_Decode : bytes -> option Block * bytes;
  pem_EncodeToMemory : Block -> bytes;
  x509_ParseCertificate : bytes -> result Certificate;
  x509_ParsePKCS1PrivateKey : bytes -> result PrivateKey;
  x509_MarshalPKCS1PrivateKey : PrivateKey -> bytes;
  GenerateKey : Rand -> Z -> result PrivateKey * Rand;
  CreateCertificate :
    Rand -> Certificate -> Certificate -> PublicKey -> PrivateKey ->
    result bytes * Rand;
  CheckSignature :
    Certificate -> SignatureAlgorithm -> bytes -> bytes -> option error;
  strconv_Quote : string -> string;
  GoSyntax : error -> string
}.

(** ** Package fmt *)

(** [func (e error) Error() string] *)
Definition Error (e : error) : string :=
  match e with
  | errorString s => s
  | PathError op path err => op +:+ " " +:+ path +:+ ": " +:+ err
  end.

Inductive fmtarg :=
| VString (s : string)
| VError (e : error).

Section Fmt.
Context `{lib : GoLib}.

(** The verb [%v]. *)
Definition fmt_v (a : fmtarg) : string :=
  match a with
  | VString s => s
  | VError e => Error e
  end.

(** The verb [%#v]: Go syntax of the value. *)
Definition fmt_sharp_v (a : fmtarg) : string :=
  match a with
  | VString s => strconv_Quote s
  | VError e => GoSyntax e
  end.

(** [fmt.Sprintf], for the verbs [%v] and [%#v]. *)
Fixpoint Sprintf (format : string) (a : list fmtarg) : string :=
  match format with
  | EmptyString => EmptyString
  | String c rest =>
      if Ascii.eqb c "%"%char then
        match rest with
        | String c1 rest1 =>
            if Ascii.eqb c1 "v"%char then
              match a with
              | x :: a' => fmt_v x +:+ Sprintf rest1 a'
              | [] => "%!v(MISSING)" +:+ Sprintf rest1 []
              end
            else if Ascii.eqb c1 "#"%char then
              match rest1 with
              | String c2 rest2 =>
                  if Ascii.eqb c2 "v"%char then
                    match a with
                    | x :: a' => fmt_sharp_v x +:+ Sprintf rest2 a'
                    | [] => "%!v(MISSING)" +:+ Sprintf rest2 []
                    end
                  else String c (Sprintf rest a)
              | EmptyString => String c (Sprintf rest a)
              end
            else String c (Sprintf rest a)
        | EmptyString => String c EmptyString
        end
      else String c (Sprintf rest a)
  end.

(** [fmt.Errorf] *)
Definition Errorf (format : string) (a : list fmtarg) : error :=
  errorString (Sprintf format a).
End Fmt.

(** ** The command's options ([certClusterOptions]) *)

Module CA.
Record t := { Crt : string; Key : string }.
End CA.

Module Out.
Record t := {
  Bit : Z;
  Com : string;
  Org : string;
  Crt : string;
  Key : string
}.
End Out.

Record certClusterOptions := { CA : CA.t; Out : Out.t }.

(** The options with another [--key-size]. *)
Definition with_Bit (bit : Z) (opt : certClusterOptions) : certClusterOptions :=
  {| CA := CA opt;
     Out := {| Out.Bit := bit; Out.Com := Out.Com (Out opt);
               Out.Org := Out.Org (Out opt); Out.Crt := Out.Crt (Out opt);
               Out.Key := Out.Key (Out opt) |} |}.

(** [len(s) == 0] *)
Definition len_is_0 (s : string) : bool := Nat.eqb (String.length s) 0.

(** File mode [0644]. *)
Definition mode_0644 : Z := 6 * 8 * 8 + 4 * 8 + 4.

(** ** The world the command runs in *)

(** Calls that reach outside the process, in the order they are made. *)
Inductive Event :=
| EvReadFile (path : string)
| EvWriteFile (path : string) (data : bytes) (perm : Z)
| EvNow
| EvGenerateKey (bits : Z)
| EvCreateCertificate (template parent : Certificate)
    (pub : PublicKey) (priv : PrivateKey)
| EvLog (line : string).

(** How a command body ends: [return nil] (or a value), [return err],
    or a run-time panic. *)
Inductive outcome (A : Type) :=
| Returned (a : A)
| Failed (e : error)
| Panicked (msg : string).
Arguments Returned {A} a.
Arguments Failed {A} e.
Arguments Panicked {A} msg.

Section Model.
Context `{lib : GoLib}.

(** [fs] maps a path to the contents of the file there; opening a
    path of [unreadable] for reading, or one of [unwritable] for
    writing, is refused by the system.  [clock n] is what the [n]-th
    reading of the clock returns. *)
Record World := {
  fs : gmap string bytes;
  unreadable : gset string;
  unwritable : gset string;
  clock : nat -> Time;
  ticks : nat;
  rand : Rand;
  trace : list Event
}.

Definition emit (ev : Event) (w : World) : World :=
  {| fs := fs w; unreadable := unreadable w; unwritable := unwritable w;
     clock := clock w; ticks := ticks w; rand := rand w;
     trace := trace w ++ [ev] |}.

Definition set_fs (f : gmap string bytes) (w : World) : World :=
  {| fs := f; unreadable := unreadable w; unwritable := unwritable w;
     clock := clock w; ticks := ticks w; rand := rand w;
     trace := trace w |}.

Definition set_ticks (n : nat) (w : World) : World :=
  {| fs := fs w; unreadable := unreadable w; unwritable := unwritable w;
     clock := clock w; ticks := n; rand := rand w;
     trace := trace w |}.

Definition set_rand (r : Rand) (w : World) : World :=
  {| fs := fs w; unreadable := unreadable w; unwritable := unwritable w;
     clock := clock w; ticks := ticks w; rand := r;
     trace := trace w |}.

(** State and early exit. *)
Definition M (A : Type) : Type := World -> outcome A * World.

#[global] Instance M_ret : MRet M := fun _ a w => (Returned a, w).

#[global] Instance M_bind : MBind M := fun _ _ k m w =>
  match m w with
  | (Returned a, w') => k a w'
  | (Failed e, w') => (Failed e, w')
  | (Panicked msg, w') => (Panicked msg, w')
  end.

(** [return err] *)
Definition throw {A} (e : error) : M A := fun w => (Failed e, w).

Definition panic {A} (msg : string) : M A := fun w => (Panicked msg, w).

(** [p.f] on a pointer [p]: a nil pointer panics. *)
Definition deref {A} (p : option A) : M A :=
  match p with
  | Some a => mret a
  | None =>
      panic "runtime error: invalid memory address or nil pointer dereference"
  end.

(** [ioutil.ReadFile]: what it returns in a given world. *)
Definition read_result (w : World) (filename : string) : result bytes :=
  if decide (filename ∈ unreadable w) then
    Err (PathError "open" filename "permission denied")
  else
    match fs w !! filename with
    | Some data => Ok data
    | None => Err (PathError "open" filename "no such file or directory")
    end.

Definition ioutil_ReadFile (filename : string) : M (result bytes) := fun w =>
  (Returned (read_result w filename), emit (EvReadFile filename) w).

(** [ioutil.WriteFile]: creates the file or replaces its contents,
    unless the system refuses to open the path. *)
Definition write_error (w : World) (filename : string) : option error :=
  if decide (filename ∈ unwritable w) then
    Some (PathError "open" filename "permission denied")
  else None.

Definition ioutil_WriteFile (filename : string) (data : bytes) (perm : Z)
  : M (option error) := fun w =>
  let w' := emit (EvWriteFile filename data perm) w in
  match write_error w filename with
  | Some err => (Returned (Some err), w')
  | None => (Returned None, set_fs (<[filename := data]> (fs w)) w')
  end.

(** [time.Now] *)
Definition time_Now : M Time := fun w =>
  (Returned (clock w (ticks w)), set_ticks (S (ticks w)) (emit EvNow w)).

(** [rsa.GenerateKey(rand.Reader, bits)] *)
Definition rsa_GenerateKey (bits : Z) : M (result PrivateKey) := fun w =>
  let '(r, rnd) := GenerateKey (rand w) bits in
  (Returned r, set_rand rnd (emit (EvGenerateKey bits) w)).

(** [x509.CreateCertificate(rand.Reader, template, parent, pub, priv)] *)
Definition x509_CreateCertificate (template parent : Certificate)
    (pub : PublicKey) (priv : PrivateKey) : M (result bytes) := fun w =>
  let '(r, rnd) := CreateCertificate (rand w) template parent pub priv in
  (Returned r, set_rand rnd (emit (EvCreateCertificate template parent pub priv) w)).

(** [log.Printf] *)
Definition log_Printf (format : string) (a : list fmtarg) : M unit := fun w =>
  (Returned tt, emit (EvLog (Sprintf format a)) w).

(** ** cmd/cert-cluster.go *)

(** [certClusterCmd.PreRunE]; [None] is [return nil]. *)
Definition PreRunE (certClusterOpt : certClusterOptions) : option error :=
  if len_is_0 (CA.Crt (CA certClusterOpt)) then
    Some (Errorf "Please provide a CA certificate file path." [])
  else if len_is_0 (CA.Key (CA certClusterOpt)) then
    Some (Errorf "Please provide a CA private key file path." [])
  else if len_is_0 (Out.Org (Out certClusterOpt)) then
    Some (Errorf "Please provide an organisation name." [])
  else if len_is_0 (Out.Crt (Out certClusterOpt)) then
    Some (Errorf "Please provide a certificate file path." [])
  else if len_is_0 (Out.Key (Out certClusterOpt)) then
    Some (Errorf "Please provide a private key file path." [])
  else None.

(** The body of the loop over [args] in [RunE]. *)
Definition classify_step (acc : list string * list IP) (v : string)
  : list string * list IP :=
  let '(dns, ips) := acc in
  let chk := ParseIP v in
  if not_nil (To4 chk) then (dns, ips ++ [To4 chk])
  else if not_nil (To16 chk) then (dns, ips ++ [To16 chk])
  else (dns ++ [v], ips).

(** The loop: [dns] and [ips] start as nil slices. *)
Definition classify (args : list string) : list string * list IP :=
  fold_left classify_step args ([], []).

(** [if err != nil { return wrap(err) }] after a call returning
    [(value, err)], and after one returning [err] alone. *)
Definition or_return {A} (wrap : error -> error) (r : result A) : M A :=
  match r with
  | Ok a => mret a
  | Err err => throw (wrap err)
  end.

Definition or_return_err (wrap : error -> error) (r : option error) : M unit :=
  match r with
  | None => mret tt
  | Some err => throw (wrap err)
  end.

(** The template [csr] of [RunE]; [t1], [t2], [t3] are the three clock
    readings its literal takes, in order. *)
Definition csr_template (certClusterOpt : certClusterOptions)
    (dns : list string) (ips : list IP) (t1 t2 t3 : Time) : Certificate :=
  {| RawTBSCertificate := [];
     Signature := [];
     SignatureAlgorithm_of := SHA512WithRSA;
     PublicKeyAlgorithm_of := ECDSA;
     PublicKey_in := None;
     SerialNumber := Some (UnixNano t3);
     Issuer := Name_zero;
     Subject := {| CommonName := Out.Com (Out certClusterOpt);
                   Organization := [Out.Org (Out certClusterOpt)] |};
     NotBefore := t1;
     NotAfter := AddDate t2 10 0 0;
     KeyUsage :=
       Z.lor (Z.lor (Z.lor (Z.lor (Z.lor
         KeyUsageCertSign
         KeyUsageDigitalSignature)
         KeyUsageKeyAgreement)
         KeyUsageKeyEncipherment)
         KeyUsageDataEncipherment)
         KeyUsageContentCommitment;
     ExtKeyUsage_of := [ExtKeyUsageServerAuth; ExtKeyUsageClientAuth];
     BasicConstraintsValid := true;
     IsCA := false;
     DNSNames := dns;
     IPAddresses := ips |}.

(** [certClusterCmd.RunE] *)
Definition RunE (certClusterOpt : certClusterOptions) (args : list string)
  : M unit :=
  let '(dns, ips) := classify args in
  caCrtFile ← ioutil_ReadFile (CA.Crt (CA certClusterOpt)) ≫=
    or_return (fun _ =>
      Errorf "Could not read file: %#v" [VString (CA.Crt (CA certClusterOpt))]);
  caCrtData ← deref (fst (pem_Decode caCrtFile));
  caCrt ← or_return (fun err =>
      Errorf "Could not parse CA certificate: %#v" [VError err])
    (x509_ParseCertificate (Bytes caCrtData));
  caKeyFile ← ioutil_ReadFile (CA.Key (CA certClusterOpt)) ≫=
    or_return (fun _ =>
      Errorf "Could not read file: %#v" [VString (CA.Crt (CA certClusterOpt))]);
  caKeyData ← deref (fst (pem_Decode caKeyFile));
  caKey ← or_return (fun err =>
      Errorf "Could not parse CA private key: %#v" [VError err])
    (x509_ParsePKCS1PrivateKey (Bytes caKeyData));
  t1 ← time_Now;
  t2 ← time_Now;
  t3 ← time_Now;
  let csr := csr_template certClusterOpt dns ips t1 t2 t3 in
  key ← rsa_GenerateKey (Out.Bit (Out certClusterOpt)) ≫=
    or_return (fun err =>
      Errorf "Certificate generation failed: %#v" [VError err]);
  let prv := x509_MarshalPKCS1PrivateKey key in
  pub ← x509_CreateCertificate csr caCrt (PublicKey_of key) caKey ≫=
    or_return (fun err =>
      Errorf "Certificate generation failed: %#v" [VError err]);
  let enc :=
    pem_EncodeToMemory {| Type_ := "CERTIFICATE"; Headers := []; Bytes := pub |} in
  log_Printf "Saving server certificate file into %v..."
    [VString (Out.Crt (Out certClusterOpt))];;
  ioutil_WriteFile (Out.Crt (Out certClusterOpt)) enc mode_0644 ≫=
    or_return_err (fun err =>
      Errorf "Unable to write certificate file to %v: %#v"
        [VString (Out.Crt (Out certClusterOpt)); VError err]);;
  let enc :=
    pem_EncodeToMemory {| Type_ := "RSA PRIVATE KEY"; Headers := []; Bytes := prv |} in
  log_Printf "Saving server private key file into %v..."
    [VString (Out.Key (Out certClusterOpt))];;
  ioutil_WriteFile (Out.Key (Out certClusterOpt)) enc mode_0644 ≫=
    or_return_err (fun err =>
      Errorf "Unable to write private key file to %v: %#v"
        [VString (Out.Key (Out certClusterOpt)); VError err]);;
  mret tt.

(** How cobra runs the command: [PreRunE] first, and [RunE] only when
    [PreRunE] returned nil. *)
Definition execute (certClusterOpt : certClusterOptions) (args : list string)
  : M unit :=
  match PreRunE certClusterOpt with
  | Some err => throw err
  | None => RunE certClusterOpt args
  end.
End Model.

(** ** The identity classifier, in the specification's words

    One identifier is an IPv4 address when it parses and has a 4-byte
    form, else an IPv6 address when it parses and has a 16-byte form,
    else a DNS name. *)
Inductive HostId :=
| IsIPv4 (b : list byte)
| IsIPv6 (b : list byte)
| IsDNS (name : string).

Section ClassifierSpec.
Context `{lib : GoLib}.

Definition identify (v : string) : HostId :=
  match ParseIP v with
  | None => IsDNS v
  | Some addr =>
      match To4 (Some addr) with
      | Some b4 => IsIPv4 b4
      | None =>
          match To16 (Some addr) with
          | Some b16 => IsIPv6 b16
          | None => IsDNS v
          end
      end
  end.

Definition dns_name (h : HostId) : option string :=
  match h with
  | IsDNS name => Some name
  | _ => None
  end.

Definition ip_value (h : HostId) : option IP :=
  match h with
  | IsIPv4 b => Some (Some b)
  | IsIPv6 b => Some (Some b)
  | IsDNS _ => None
  end.

Definition spec_dns (args : list string) : list string :=
  omap (fun v => dns_name (identify v)) args.

Definition spec_ips (args : list string) : list IP :=
  omap (fun v => ip_value (identify v)) args.
End ClassifierSpec.

(** ** The exits of [RunE]

    One rule for each way out of the command body: its [return]
    statements, and the two places where a nil [*pem.Block] is
    dereferenced.  Each rule gives the outcome and the world left
    behind, in terms of the world the command started in. *)

(** [msg] contains [part]. *)
Definition names (msg part : string) : Prop :=
  exists before after, msg = before +:+ part +:+ after.

(** The same, as a test. *)
Fixpoint starts_with (part msg : string) : bool :=
  match part, msg with
  | EmptyString, _ => true
  | String c part', String d msg' => Ascii.eqb c d && starts_with part' msg'
  | String _ _, EmptyString => false
  end.

Fixpoint contains (msg part : string) : bool :=
  starts_with part msg ||
  match msg with
  | EmptyString => false
  | String _ msg' => contains msg' part
  end.

Definition nil_dereference : string :=
  "runtime error: invalid memory address or nil pointer dereference".

Definition is_write (ev : Event) : bool :=
  match ev with
  | EvWriteFile _ _ _ => true
  | _ => false
  end.

Definition is_keygen (ev : Event) : bool :=
  match ev with
  | EvGenerateKey _ => true
  | _ => false
  end.

(** The writes among some calls, and the key generations. *)
Definition writes (evs : list Event) : list Event := List.filter is_write evs.

Definition keygens (evs : list Event) : list Event := List.filter is_keygen evs.

(** The templates handed to [x509.CreateCertificate], in order. *)
Definition templates (evs : list Event) : list Certificate :=
  omap (fun ev =>
          match ev with
          | EvCreateCertificate template _ _ _ => Some template
          | _ => None
          end) evs.

Section Exits.
Context `{lib : GoLib}.

(** The world [w] after more calls: its files, [n] more readings of
    the clock, the state of the entropy source, and the calls. *)
Definition after (w : World) (files : gmap string bytes) (n : nat)
    (r : Rand) (evs : list Event) : World :=
  {| fs := files; unreadable := unreadable w; unwritable := unwritable w;
     clock := clock w; ticks := n + ticks w; rand := r;
     trace := trace w ++ evs |}.

Section Run.
Variable opt : certClusterOptions.
Variable args : list string.
Variable w : World.

Let ca_crt := CA.Crt (CA opt).
Let ca_key := CA.Key (CA opt).
Let out_crt := Out.Crt (Out opt).
Let out_key := Out.Key (Out opt).

(** The CA certificate file is read, holds a PEM block, and the
    block parses. *)
Definition ca_cert_loaded (caCrt : Certificate) : Prop :=
  exists caCrtFile caCrtData,
    read_result w ca_crt = Ok caCrtFile
    /\ fst (pem_Decode caCrtFile) = Some caCrtData
    /\ x509_ParseCertificate (Bytes caCrtData) = Ok caCrt.

Definition ca_key_loaded (caKey : PrivateKey) : Prop :=
  exists caKeyFile caKeyData,
    read_result w ca_key = Ok caKeyFile
    /\ fst (pem_Decode caKeyFile) = Some caKeyData
    /\ x509_ParsePKCS1PrivateKey (Bytes caKeyData) = Ok caKey.

(** The template of this run: the classified arguments, and the
    next three readings of the clock. *)
Definition run_csr : Certificate :=
  csr_template opt (fst (classify args)) (snd (classify args))
    (clock w (ticks w)) (clock w (S (ticks w))) (clock w (S (S (ticks w)))).

(** Both halves of the CA material are loaded, a key is generated
    and the template is signed. *)
Definition signed (caCrt : Certificate) (caKey key : PrivateKey)
    (pub : bytes) (rnd : Rand) : Prop :=
  ca_cert_loaded caCrt /\ ca_key_loaded caKey
  /\ exists rnd1,
       GenerateKey (rand w) (Out.Bit (Out opt)) = (Ok key, rnd1)
       /\ CreateCertificate rnd1 run_csr caCrt (PublicKey_of key) caKey
            = (Ok pub, rnd).

Definition cert_pem (pub : bytes) : bytes :=
  pem_EncodeToMemory
    {| Type_ := "CERTIFICATE"; Headers := []; Bytes := pub |}.

Definition key_pem (key : PrivateKey) : bytes :=
  pem_EncodeToMemory
    {| Type_ := "RSA PRIVATE KEY"; Headers := [];
       Bytes := x509_MarshalPKCS1PrivateKey key |}.

(** The calls made up to each point of the body. *)
Definition evs_crt : list Event := [EvReadFile ca_crt].

Definition evs_key : list Event := evs_crt ++ [EvReadFile ca_key].

Definition evs_keygen : list Event :=
  evs_key ++ [EvNow; EvNow; EvNow; EvGenerateKey (Out.Bit (Out opt))].

Definition evs_sign (caCrt : Certificate) (caKey key : PrivateKey)
  : list Event :=
  evs_keygen ++ [EvCreateCertificate run_csr caCrt (PublicKey_of key) caKey].

Definition evs_write_crt (caCrt : Certificate) (caKey key : PrivateKey)
    (pub : bytes) : list Event :=
  evs_sign caCrt caKey key ++
    [EvLog (Sprintf "Saving server certificate file into %v..."
              [VString out_crt]);
     EvWriteFile out_crt (cert_pem pub) mode_0644].

Definition evs_write_key (caCrt : Certificate) (caKey key : PrivateKey)
    (pub : bytes) : list Event :=
  evs_write_crt caCrt caKey key pub ++
    [EvLog (Sprintf "Saving server private key file into %v..."
              [VString out_key]);
     EvWriteFile out_key (key_pem key) mode_0644].

Inductive RunE_exit : outcome unit -> World -> Prop :=
| exit_read_crt err :
    read_result w ca_crt = Err err ->
    RunE_exit
      (Failed (Errorf "Could not read file: %#v" [VString ca_crt]))
      (after w (fs w) 0 (rand w) evs_crt)
| exit_nil_crt caCrtFile :
    read_result w ca_crt = Ok caCrtFile ->
    fst (pem_Decode caCrtFile) = None ->
    RunE_exit (Panicked nil_dereference)
      (after w (fs w) 0 (rand w) evs_crt)
| exit_parse_crt caCrtFile caCrtData err :
    read_result w ca_crt = Ok caCrtFile ->
    fst (pem_Decode caCrtFile) = Some caCrtData ->
    x509_ParseCertificate (Bytes caCrtData) = Err err ->
    RunE_exit
      (Failed (Errorf "Could not parse CA certificate: %#v" [VError err]))
      (after w (fs w) 0 (rand w) evs_crt)
| exit_read_key caCrt err :
    ca_cert_loaded caCrt ->
    read_result w ca_key = Err err ->
    RunE_exit
      (Failed (Errorf "Could not read file: %#v" [VString ca_crt]))
      (after w (fs w) 0 (rand w) evs_key)
| exit_nil_key caCrt caKeyFile :
    ca_cert_loaded caCrt ->
    read_result w ca_key = Ok caKeyFile ->
    fst (pem_Decode caKeyFile) = None ->
    RunE_exit (Panicked nil_dereference)
      (after w (fs w) 0 (rand w) evs_key)
| exit_parse_key caCrt caKeyFile caKeyData err :
    ca_cert_loaded caCrt ->
    read_result w ca_key = Ok caKeyFile ->
    fst (pem_Decode caKeyFile) = Some caKeyData ->
    x509_ParsePKCS1PrivateKey (Bytes caKeyData) = Err err ->
    RunE_exit
      (Failed (Errorf "Could not parse CA private key: %#v" [VError err]))
      (after w (fs w) 0 (rand w) evs_key)
| exit_keygen caCrt caKey err rnd :
    ca_cert_loaded caCrt ->
    ca_key_loaded caKey ->
    GenerateKey (rand w) (Out.Bit (Out opt)) = (Err err, rnd) ->
    RunE_exit
      (Failed (Errorf "Certificate generation failed: %#v" [VError err]))
      (after w (fs w) 3 rnd evs_keygen)
| exit_sign caCrt caKey key rnd1 err rnd :
    ca_cert_loaded caCrt ->
    ca_key_loaded caKey ->
    GenerateKey (rand w) (Out.Bit (Out opt)) = (Ok key, rnd1) ->
    CreateCertificate rnd1 run_csr caCrt (PublicKey_of key) caKey
      = (Err err, rnd) ->
    RunE_exit
      (Failed (Errorf "Certificate generation failed: %#v" [VError err]))
      (after w (fs w) 3 rnd (evs_sign caCrt caKey key))
| exit_write_crt caCrt caKey key pub rnd err :
    signed caCrt caKey key pub rnd ->
    write_error w out_crt = Some err ->
    RunE_exit
      (Failed (Errorf "Unable to write certificate file to %v: %#v"
                 [VString out_crt; VError err]))
      (after w (fs w) 3 rnd (evs_write_crt caCrt caKey key pub))
| exit_write_key caCrt caKey key pub rnd err :
    signed caCrt caKey key pub rnd ->
    write_error w out_crt = None ->
    write_error w out_key = Some err ->
    RunE_exit
      (Failed (Errorf "Unable to write private key file to %v: %#v"
                 [VString out_key; VError err]))
      (after w (<[out_crt := cert_pem pub]> (fs w)) 3 rnd
         (evs_write_key caCrt caKey key pub))
| exit_nil caCrt caKey key pub rnd :
    signed caCrt caKey key pub rnd ->
    write_error w out_crt = None ->
    write_error w out_key = None ->
    RunE_exit (Returned tt)
      (after w
         (<[out_key := key_pem key]> (<[out_crt := cert_pem pub]> (fs w)))
         3 rnd (evs_write_key caCrt caKey key pub)).

(** The failures ahead of the first write: of reading or parsing the
    CA certificate, of reading or parsing the CA private key, of
    generating the key, of signing. *)
Inductive early_failure : Prop :=
| fail_read_crt err :
    read_result w ca_crt = Err err -> early_failure
| fail_parse_crt caCrtFile caCrtData err :
    read_result w ca_crt = Ok caCrtFile ->
    fst (pem_Decode caCrtFile) = Some caCrtData ->
    x509_ParseCertificate (Bytes caCrtData) = Err err ->
    early_failure
| fail_read_key caCrt err :
    ca_cert_loaded caCrt ->
    read_result w ca_key = Err err ->
    early_failure
| fail_parse_key caCrt caKeyFile caKeyData err :
    ca_cert_loaded caCrt ->
    read_result w ca_key = Ok caKeyFile ->
    fst (pem_Decode caKeyFile) = Some caKeyData ->
    x509_ParsePKCS1PrivateKey (Bytes caKeyData) = Err err ->
    early_failure
| fail_keygen caCrt caKey err rnd :
    ca_cert_loaded caCrt ->
    ca_key_loaded caKey ->
    GenerateKey (rand w) (Out.Bit (Out opt)) = (Err err, rnd) ->
    early_failure
| fail_sign caCrt caKey key rnd1 err rnd :
    ca_cert_loaded caCrt ->
    ca_key_loaded caKey ->
    GenerateKey (rand w) (Out.Bit (Out opt)) = (Ok key, rnd1) ->
    CreateCertificate rnd1 run_csr caCrt (PublicKey_of key) caKey
      = (Err err, rnd) ->
    early_failure.
End Run.

(** Modelled from the spec: the signing operation of crypto/x509
    ([x509.CreateCertificate], with [x509.ParseCertificate] and
    [Certificate.CheckSignature] to read its result), which belongs to
    Go's standard library and is not in the repository.  In the
    specification's words it must "produce a DER-encoded certificate
    binding the new public key to the template, signed by the CA private
    key, with the CA certificate as issuer": what it returns parses as a
    certificate with the template's subject, the given public key and
    the parent's subject as issuer, and its signature verifies under the
    public half of the signing key. *)
Definition signing_contract : Prop :=
  forall r template parent pub priv der r',
    CreateCertificate r template parent pub priv = (Ok der, r') ->
    exists leaf,
      x509_ParseCertificate der = Ok leaf
      /\ Subject leaf = Subject template
      /\ PublicKey_in leaf = Some pub
      /\ Issuer leaf = Subject parent
      /\ forall c,
           PublicKey_in c = Some (PublicKey_of priv) ->
           CheckSignature c (SignatureAlgorithm_of leaf)
             (RawTBSCertificate leaf) (Signature leaf) = None.
End Exits.

(** ** A sample standard library and sample worlds

    A small instance of [GoLib], to run the command on concrete inputs:
    a proleptic Gregorian calendar in UTC for [AddDate], and tables for
    the parsers and the cryptography, which know one authority and one
    issued certificate. *)
Module Sample.

Definition bs (s : string) : bytes := String.list_byte_of_string s.

Fixpoint bytes_eqb (a b : bytes) : bool :=
  match a, b with
  | [], [] => true
  | x :: a', y :: b' => Byte.eqb x y && bytes_eqb a' b'
  | _, _ => false
  end.

(** Days since 1970-01-01 of a civil date, and back. *)
Definition days_from_civil (y m d : Z) : Z :=
  let y := if m <=? 2 then y - 1 else y in
  let era := y / 400 in
  let yoe := y - era * 400 in
  let doy := (153 * (m + (if 2 <? m then -3 else 9)) + 2) / 5 + d - 1 in
  let doe := yoe * 365 + yoe / 4 - yoe / 100 + doy in
  era * 146097 + doe - 719468.

Definition civil_from_days (z : Z) : Z * Z * Z :=
  let z := z + 719468 in
  let era := z / 146097 in
  let doe := z - era * 146097 in
  let yoe := (doe - doe / 1460 + doe / 36524 - doe / 146096) / 365 in
  let doy := doe - (365 * yoe + yoe / 4 - yoe / 100) in
  let mp := (5 * doy + 2) / 153 in
  let d := doy - (153 * mp + 2) / 5 + 1 in
  let m := if mp <? 10 then mp + 3 else mp - 9 in
  ((if m <=? 2 then yoe + era * 400 + 1 else yoe + era * 400), m, d).

(** [AddDate] in UTC: the date is advanced field by field and then
    normalised, as [time.Date] does; the time of day is kept. *)
Definition utc_AddDate (t : Time) (years months days : Z) : Time :=
  let day := unixSec t / 86400 in
  let sec_of_day := unixSec t mod 86400 in
  let '(y, m, d) := civil_from_days day in
  let m' := m - 1 + months in
  let y' := y + years + m' / 12 in
  let day' := days_from_civil y' (m' mod 12 + 1) 1 + (d - 1 + days) in
  {| unixSec := day' * 86400 + sec_of_day; nsec := nsec t |}.

Definition quote : string := String (ascii_of_nat 34) EmptyString.

Definition sample_Quote (s : string) : string := quote +:+ s +:+ quote.

Definition sample_GoSyntax (e : error) : string :=
  match e with
  | errorString s => "&errors.errorString{s:" +:+ sample_Quote s +:+ "}"
  | PathError op path err =>
      "&os.PathError{Op:" +:+ sample_Quote op +:+ ", Path:"
        +:+ sample_Quote path +:+ ", Err:" +:+ sample_Quote err +:+ "}"
  end.

(** The 16-byte forms that [net.ParseIP] returns. *)
Definition sample_ParseIP (s : string) : IP :=
  if String.eqb s "10.0.0.5" then IPv4 x0a x00 x00 x05
  else if String.eqb s "192.168.1.20" then IPv4 xc0 xa8 x01 x14
  else if String.eqb s "::1" then
    Some [x00; x00; x00; x00; x00; x00; x00; x00;
          x00; x00; x00; x00; x00; x00; x00; x01]
  else None.

(** The authority: textbook RSA numbers. *)
Definition ca_key : PrivateKey :=
  {| PublicKey_of := {| N := 3233; E := 17 |}; D := 2753; Primes := [61; 53] |}.

Definition node_key : PrivateKey :=
  {| PublicKey_of := {| N := 2773; E := 17 |}; D := 157; Primes := [47; 59] |}.

Definition epoch : Time := {| unixSec := 0; nsec := 0 |}.

Definition ca_name : Name :=
  {| Organization := ["Acme CA"]; CommonName := "root" |}.

Definition ca_cert : Certificate :=
  {| RawTBSCertificate := bs "tbs:root";
     Signature := bs "sig:root";
     SignatureAlgorithm_of := SHA512WithRSA;
     PublicKeyAlgorithm_of := RSA;
     PublicKey_in := Some (PublicKey_of ca_key);
     SerialNumber := Some 1;
     Issuer := ca_name;
     Subject := ca_name;
     NotBefore := epoch;
     NotAfter := utc_AddDate epoch 100 0 0;
     KeyUsage := Z.lor KeyUsageCertSign KeyUsageCRLSign;
     ExtKeyUsage_of := [];
     BasicConstraintsValid := true;
     IsCA := true;
     DNSNames := [];
     IPAddresses := [] |}.

Definition ca_der : bytes := bs "der:root".
Definition ca_key_der : bytes := bs "der:root-key".
Definition node_key_der : bytes := bs "der:node-key".
Definition ca_crt_file : bytes := bs "pem:CERTIFICATE:der:root".
Definition ca_key_file : bytes := bs "pem:RSA PRIVATE KEY:der:root-key".

Definition node_name : Name :=
  {| Organization := ["Acme"]; CommonName := "node1" |}.

(** The instants of the sample runs: the clock starts at
    2024-01-01T00:00:00Z and has moved by 100ns at each reading. *)
Definition sample_clock (n : nat) : Time :=
  {| unixSec := 1704067200; nsec := Z.of_nat n * 100 |}.

Definition node_cert : Certificate :=
  {| RawTBSCertificate := bs "tbs:node1";
     Signature := bs "sig:node1";
     SignatureAlgorithm_of := SHA512WithRSA;
     PublicKeyAlgorithm_of := RSA;
     PublicKey_in := Some (PublicKey_of node_key);
     SerialNumber := Some (UnixNano (sample_clock 2));
     Issuer := ca_name;
     Subject := node_name;
     NotBefore := sample_clock 0;
     NotAfter := utc_AddDate (sample_clock 1) 10 0 0;
     KeyUsage := 63;
     ExtKeyUsage_of := [ExtKeyUsageServerAuth; ExtKeyUsageClientAuth];
     BasicConstraintsValid := true;
     IsCA := false;
     DNSNames := ["node1.cluster.local"];
     IPAddresses := [Some [x0a; x00; x00; x05]] |}.

Definition node_der : bytes := bs "der:node1".

#[local] Instance PublicKey_eq_dec : EqDecision PublicKey.
Proof. solve_decision. Defined.
#[local] Instance PrivateKey_eq_dec : EqDecision PrivateKey.
Proof. solve_decision. Defined.
#[local] Instance Name_eq_dec : EqDecision Name.
Proof. solve_decision. Defined.
#[local] Instance SignatureAlgorithm_eq_dec : EqDecision SignatureAlgorithm.
Proof. solve_decision. Defined.

(** A PEM look-alike: the type, then the payload as it is. *)
Fixpoint strip_prefix (p data : bytes) : option bytes :=
  match p, data with
  | [], _ => Some data
  | x :: p', y :: data' =>
      if Byte.eqb x y then strip_prefix p' data' else None
  | _ :: _, [] => None
  end.

Definition sample_Encode (b : Block) : bytes :=
  bs ("pem:" +:+ Type_ b +:+ ":") ++ Bytes b.

Definition sample_Decode (data : bytes) : option Block * bytes :=
  match strip_prefix (bs "pem:CERTIFICATE:") data with
  | Some der =>
      (Some {| Type_ := "CERTIFICATE"; Headers := []; Bytes := der |}, [])
  | None =>
      match strip_prefix (bs "pem:RSA PRIVATE KEY:") data with
      | Some der =>
          (Some {| Type_ := "RSA PRIVATE KEY"; Headers := []; Bytes := der |}, [])
      | None => (None, data)
      end
  end.

Definition sample_ParseCertificate (der : bytes) : result Certificate :=
  if bytes_eqb der ca_der then Ok ca_cert
  else if bytes_eqb der node_der then Ok node_cert
  else Err (errorString "x509: malformed certificate").

Definition sample_ParsePKCS1PrivateKey (der : bytes) : result PrivateKey :=
  if bytes_eqb der ca_key_der then Ok ca_key
  else if bytes_eqb der node_key_der then Ok node_key
  else Err (errorString "x509: failed to parse private key").

Definition sample_MarshalPKCS1PrivateKey (k : PrivateKey) : bytes :=
  if decide (k = ca_key) then ca_key_der
  else if decide (k = node_key) then node_key_der
  else bs "der:other-key".

Definition sample_GenerateKey (r : nat) (bits : Z)
  : result PrivateKey * nat :=
  if bits <? 2 then
    (Err (errorString "crypto/rsa: too few primes of given length to generate an RSA key"), r)
  else (Ok node_key, S r).

(** Signs for the one authority, and issues the one certificate. *)
Definition sample_CreateCertificate (r : nat) (template parent : Certificate)
    (pub : PublicKey) (priv : PrivateKey) : result bytes * nat :=
  if bool_decide (Subject parent = ca_name) && bool_decide (priv = ca_key)
     && bool_decide (pub = PublicKey_of node_key)
     && bool_decide (Subject template = node_name)
  then (Ok node_der, S r)
  else (Err (errorString "x509: unsupported request"), r).

Definition sample_CheckSignature (c : Certificate)
    (algo : SignatureAlgorithm) (signed signature : bytes) : option error :=
  if bool_decide (PublicKey_in c = Some (PublicKey_of ca_key))
     && bool_decide (algo = SHA512WithRSA)
     && bytes_eqb signed (bs "tbs:node1")
     && bytes_eqb signature (bs "sig:node1")
  then None
  else Some (errorString "crypto/rsa: verification error").

#[export] Instance lib : GoLib :=
  {| Rand := nat;
     ParseIP := sample_ParseIP;
     AddDate := utc_AddDate;
     pem_Decode := sample_Decode;
     pem_EncodeToMemory := sample_Encode;
     x509_ParseCertificate := sample_ParseCertificate;
     x509_ParsePKCS1PrivateKey := sample_ParsePKCS1PrivateKey;
     x509_MarshalPKCS1PrivateKey := sample_MarshalPKCS1PrivateKey;
     GenerateKey := sample_GenerateKey;
     CreateCertificate := sample_CreateCertificate;
     CheckSignature := sample_CheckSignature;
     strconv_Quote := sample_Quote;
     GoSyntax := sample_GoSyntax |}.

(** The command line of the specification's example:
    [--out-org Acme --out-com node1 --key-size 2048 10.0.0.5 node1.cluster.local],
    the other flags at their defaults. *)
Definition opts : certClusterOptions :=
  {| CA := {| CA.Crt := "ca.crt"; CA.Key := "ca.key" |};
     Out := {| Out.Bit := 2048; Out.Com := "node1"; Out.Org := "Acme";
               Out.Crt := "cluster.crt"; Out.Key := "cluster.key" |} |}.

Definition args : list string := ["10.0.0.5"; "node1.cluster.local"].

Definition world (files : gmap string bytes) (ro : gset string) : World :=
  {| fs := files; unreadable := ∅; unwritable := ro;
     clock := sample_clock; ticks := 0; rand := 0%nat; trace := [] |}.

(** Both files of the authority in place. *)
Definition files_ok : gmap string bytes :=
  {[ "ca.crt" := ca_crt_file; "ca.key" := ca_key_file ]}.

(** The CA certificate file holds text that is not PEM. *)
Definition files_no_pem : gmap string bytes :=
  {[ "ca.crt" := bs "not a certificate"; "ca.key" := ca_key_file ]}.

(** The CA private key file is missing. *)
Definition files_no_key : gmap string bytes :=
  {[ "ca.crt" := ca_crt_file ]}.
End Sample.


(** ** The rest of the file: the calls of a run, and [init] *)

Definition is_read (ev : Event) : bool :=
  match ev with
  | EvReadFile _ => true
  | _ => false
  end.

(** The reads among some calls. *)
Definition reads (evs : list Event) : list Event := List.filter is_read evs.

(** The variables of type string that [init] binds flags to:
    [&certClusterOpt.CA.Crt] and so on. *)
Inductive stringvar :=
| CA_Crt
| CA_Key
| Out_Com
| Out_Org
| Out_Crt
| Out_Key.

(** [*p = s] *)
Definition store_string (p : stringvar) (s : string)
    (o : certClusterOptions) : certClusterOptions :=
  match p with
  | CA_Crt => {| CA := {| CA.Crt := s; CA.Key := CA.Key (CA o) |}; Out := Out o |}
  | CA_Key => {| CA := {| CA.Crt := CA.Crt (CA o); CA.Key := s |}; Out := Out o |}
  | Out_Com =>
      {| CA := CA o;
         Out := {| Out.Bit := Out.Bit (Out o); Out.Com := s;
                   Out.Org := Out.Org (Out o); Out.Crt := Out.Crt (Out o);
                   Out.Key := Out.Key (Out o) |} |}
  | Out_Org =>
      {| CA := CA o;
         Out := {| Out.Bit := Out.Bit (Out o); Out.Com := Out.Com (Out o);
                   Out.Org := s; Out.Crt := Out.Crt (Out o);
                   Out.Key := Out.Key (Out o) |} |}
  | Out_Crt =>
      {| CA := CA o;
         Out := {| Out.Bit := Out.Bit (Out o); Out.Com := Out.Com (Out o);
                   Out.Org := Out.Org (Out o); Out.Crt := s;
                   Out.Key := Out.Key (Out o) |} |}
  | Out_Key =>
      {| CA := CA o;
         Out := {| Out.Bit := Out.Bit (Out o); Out.Com := Out.Com (Out o);
                   Out.Org := Out.Org (Out o); Out.Crt := Out.Crt (Out o);
                   Out.Key := s |} |}
  end.

(** A flag as [init] registers it: [StringVar(p, name, value, usage)],
    or [IntVar(&certClusterOpt.Out.Bit, name, value, usage)]. *)
Inductive flag :=
| StringVar (p : stringvar) (name value usage : string)
| IntVar (name : string) (value : Z) (usage : string).

Definition flag_name (f : flag) : string :=
  match f with
  | StringVar _ name _ _ => name
  | IntVar name _ _ => name
  end.

(** The flags of [init], in its order. *)
Definition registered : list flag :=
  [ StringVar CA_Crt "ca-crt" "ca.crt" "The path to the CA certificate file.";
    StringVar CA_Key "ca-key" "ca.key" "The path to the CA private key file.";
    IntVar "key-size" 4096 "The desired number of bits for the key.";
    StringVar Out_Com "out-com" "" "The common name for the server certificate.";
    StringVar Out_Org "out-org" ""
      "The origanisation name for the server certificate.";
    StringVar Out_Crt "out-crt" "cluster.crt"
      "The path destination for the server certificate file.";
    StringVar Out_Key "out-key" "cluster.key"
      "The path destination for the server private key file." ].

(** [&certClusterOptions{}] *)
Definition zero_options : certClusterOptions :=
  {| CA := {| CA.Crt := ""; CA.Key := "" |};
     Out := {| Out.Bit := 0; Out.Com := ""; Out.Org := "";
               Out.Crt := ""; Out.Key := "" |} |}.

(** Registering a flag stores its default value in its variable. *)
Definition register (o : certClusterOptions) (f : flag) : certClusterOptions :=
  match f with
  | StringVar p _ value _ => store_string p value o
  | IntVar _ value _ => with_Bit value o
  end.

(** [func init()]: the options once the flags are registered. *)
Definition init : certClusterOptions :=
  fold_left register registered zero_options.

Section CommandLine.
(** [strconv.ParseInt], by which the flag library reads [--key-size]. *)
Variable ParseInt : string -> option Z.

(** The flag library on [--name value]: the registered flag of that name
    receives the value; an unknown name, or a key size that is not a
    number, is an error. *)
Definition set_flag (o : certClusterOptions) (name value : string)
  : result certClusterOptions :=
  match List.find (fun f => String.eqb (flag_name f) name) registered with
  | None => Err (errorString ("unknown flag: --" +:+ name))
  | Some (StringVar p _ _ _) => Ok (store_string p value o)
  | Some (IntVar _ _ _) =>
      match ParseInt value with
      | Some n => Ok (with_Bit n o)
      | None =>
          Err (errorString ("invalid argument for --" +:+ name))
      end
  end.

(** The settings of a command line, left to right. *)
Fixpoint parse_flags (o : certClusterOptions) (cl : list (string * string))
  : result certClusterOptions :=
  match cl with
  | [] => Ok o
  | (name, value) :: cl' =>
      match set_flag o name value with
      | Ok o' => parse_flags o' cl'
      | Err e => Err e
      end
  end.
End CommandLine.

(** Two more sample inputs: one path for both outputs, and a world
    that refuses to open [ca.crt]. *)
Definition one_path_opts : certClusterOptions :=
  {| CA := {| CA.Crt := "ca.crt"; CA.Key := "ca.key" |};
     Out := {| Out.Bit := 2048; Out.Com := "node1"; Out.Org := "Acme";
               Out.Crt := "cluster.pem"; Out.Key := "cluster.pem" |} |}.

Definition denied_world : World (lib := Sample.lib) :=
  @Build_World Sample.lib Sample.files_ok {[ "ca.crt" ]} ∅
    Sample.sample_clock 0 0%nat [].

(** A world whose clock stands still. *)
Definition frozen_world : World (lib := Sample.lib) :=
  @Build_World Sample.lib Sample.files_ok ∅ ∅
    (fun _ => Sample.sample_clock 0) 0 0%nat [].

(** * Properties *)

(** ** Addresses *)

Lemma To4_length (ip : IP) (b : list byte) :
  To4 ip = Some b -> length b = 4%nat.
Proof.
  destruct ip as [l|]; simpl; [|discriminate].
  destruct (Nat.eqb_spec (length l) IPv4len) as [H4|H4].
  - intros [= <-]. exact H4.
  - destruct (Nat.eqb_spec (length l) IPv6len) as [H6|H6]; simpl; [|discriminate].
    destruct (isZeros (take 10 l) && byte_at l 10 xff && byte_at l 11 xff);
      [|discriminate].
    intros [= <-]. rewrite length_take, length_drop, H6. reflexivity.
Qed.

Lemma To16_length (ip : IP) (b : list byte) :
  To16 ip = Some b -> length b = 16%nat.
Proof.
  destruct ip as [l|]; simpl; [|discriminate].
  destruct (Nat.eqb_spec (length l) IPv4len) as [H4|H4].
  - destruct l as [|a [|b' [|c [|d [|e l]]]]]; try discriminate.
    intros [= <-]. reflexivity.
  - destruct (Nat.eqb_spec (length l) IPv6len) as [H6|H6]; [|discriminate].
    intros [= <-]. exact H6.
Qed.

Section Classifier.
Context `{lib : GoLib}.

(** One turn of the loop does what the classification of its
    identifier says. *)
Lemma classify_step_identify (dns : list string) (ips : list IP) (v : string) :
  classify_step (dns, ips) v =
    match identify v with
    | IsIPv4 b => (dns, ips ++ [Some b])
    | IsIPv6 b => (dns, ips ++ [Some b])
    | IsDNS name => (dns ++ [name], ips)
    end.
Proof.
  unfold classify_step, identify.
  destruct (ParseIP v) as [addr|]; [|reflexivity].
  destruct (To4 (Some addr)) as [b4|]; [reflexivity|].
  destruct (To16 (Some addr)) as [b16|]; reflexivity.
Qed.

Lemma classify_from (args dns : list string) (ips : list IP) :
  fold_left classify_step args (dns, ips) =
    (dns ++ spec_dns args, ips ++ spec_ips args).
Proof.
  revert dns ips.
  induction args as [|v args IH]; intros dns ips; cbn [fold_left].
  - unfold spec_dns, spec_ips. simpl. by rewrite !app_nil_r.
  - rewrite classify_step_identify. unfold spec_dns, spec_ips in *.
    cbn [omap list_omap].
    destruct (identify v); cbn [dns_name ip_value];
      rewrite IH, <- ?app_assoc; reflexivity.
Qed.

Lemma identify_IPv4 (v : string) (b : list byte) :
  identify v = IsIPv4 b ->
  To4 (ParseIP v) = Some b /\ length b = 4%nat.
Proof.
  unfold identify. destruct (ParseIP v) as [addr|]; [|discriminate].
  destruct (To4 (Some addr)) as [b4|] eqn:H4.
  - intros [= <-]. split; [reflexivity|]. by apply To4_length in H4.
  - destruct (To16 (Some addr)); discriminate.
Qed.

Lemma identify_IPv6 (v : string) (b : list byte) :
  identify v = IsIPv6 b ->
  To4 (ParseIP v) = None /\ To16 (ParseIP v) = Some b /\ length b = 16%nat.
Proof.
  unfold identify. destruct (ParseIP v) as [addr|]; [|discriminate].
  destruct (To4 (Some addr)) as [b4|]; [discriminate|].
  destruct (To16 (Some addr)) as [b16|] eqn:H16; [|discriminate].
  intros [= <-]. repeat split. by apply To16_length in H16.
Qed.

Lemma identify_DNS (v name : string) :
  identify v = IsDNS name ->
  name = v /\ To4 (ParseIP v) = None /\ To16 (ParseIP v) = None.
Proof.
  unfold identify. destruct (ParseIP v) as [addr|].
  - destruct (To4 (Some addr)) as [b4|]; [discriminate|].
    destruct (To16 (Some addr)) as [b16|]; [discriminate|].
    intros [= <-]. repeat split.
  - intros [= <-]. repeat split.
Qed.

(** C1. The loop over the positional arguments computes the partition
    of the specification: every identifier that parses with a 4-byte
    form gives that 4-byte value in the IP list, every other one that
    parses with a 16-byte form gives that 16-byte value, all others go
    unchanged to the DNS list; both lists keep the order of the input
    and its duplicates, and no arguments give two empty lists. *)
Theorem classify_partition (args : list string) :
  classify args = (spec_dns args, spec_ips args)
  /\ (forall v b, identify v = IsIPv4 b ->
        To4 (ParseIP v) = Some b /\ length b = 4%nat)
  /\ (forall v b, identify v = IsIPv6 b ->
        To4 (ParseIP v) = None /\ To16 (ParseIP v) = Some b
        /\ length b = 16%nat)
  /\ (forall v name, identify v = IsDNS name ->
        name = v /\ To4 (ParseIP v) = None /\ To16 (ParseIP v) = None)
  /\ classify [] = ([], []).
Proof.
  split; [apply (classify_from args [] [])|].
  split; [exact identify_IPv4|].
  split; [exact identify_IPv6|].
  split; [exact identify_DNS|reflexivity].
Qed.
End Classifier.

(** ** Preconditions *)

Lemma len_is_0_cases (s : string) :
  (len_is_0 s = true /\ s = "") \/ (len_is_0 s = false /\ s <> "").
Proof. destruct s; [left|right]; split; try reflexivity; discriminate. Qed.

Section Preconditions.
Context `{lib : GoLib}.

(** C4. [PreRunE] returns an error exactly when one of the five
    required strings is empty; the command then ends with that error
    and the world as it was: nothing read, written, drawn or logged.
    The key size plays no part in the check. *)
Theorem PreRunE_required_strings (opt : certClusterOptions) :
  (is_Some (PreRunE opt) <->
     CA.Crt (CA opt) = "" \/ CA.Key (CA opt) = "" \/ Out.Org (Out opt) = ""
     \/ Out.Crt (Out opt) = "" \/ Out.Key (Out opt) = "")
  /\ (forall err args w,
        PreRunE opt = Some err -> execute opt args w = (Failed err, w))
  /\ (forall bit, PreRunE (with_Bit bit opt) = PreRunE opt).
Proof.
  split; [|split].
  - unfold PreRunE.
    destruct (len_is_0_cases (CA.Crt (CA opt))) as [[-> ?]|[-> ?]];
      [split; eauto|].
    destruct (len_is_0_cases (CA.Key (CA opt))) as [[-> ?]|[-> ?]];
      [split; eauto|].
    destruct (len_is_0_cases (Out.Org (Out opt))) as [[-> ?]|[-> ?]];
      [split; eauto|].
    destruct (len_is_0_cases (Out.Crt (Out opt))) as [[-> ?]|[-> ?]];
      [split; eauto 6|].
    destruct (len_is_0_cases (Out.Key (Out opt))) as [[-> ?]|[-> ?]];
      [split; eauto 6|].
    split; [intros [? [=]]|]. intros [?|[?|[?|[?|?]]]]; contradiction.
  - intros err args w Herr. unfold execute. rewrite Herr. reflexivity.
  - intros bit. reflexivity.
Qed.
End Preconditions.

(** ** Running the body

    Each call of the body followed by the rest of the body, from a world
    that is [after] the initial one. *)
Section Steps.
Context `{lib : GoLib}.

Lemma after_start (w : World) : after w (fs w) 0 (rand w) [] = w.
Proof. destruct w. unfold after. cbn. by rewrite app_nil_r. Qed.

Lemma emit_after (ev : Event) (w : World) (files : gmap string bytes)
    (n : nat) (r : Rand) (evs : list Event) :
  emit ev (after w files n r evs) = after w files n r (evs ++ [ev]).
Proof. unfold emit, after. cbn. by rewrite app_assoc. Qed.

Lemma step_ReadFile {B} (filename : string) (wrap : error -> error)
    (k : bytes -> M B) (w : World) (n : nat) (r : Rand) (evs : list Event) :
  ((ioutil_ReadFile filename ≫= or_return wrap) ≫= k) (after w (fs w) n r evs) =
    match read_result w filename with
    | Ok data => k data (after w (fs w) n r (evs ++ [EvReadFile filename]))
    | Err err =>
        (Failed (wrap err), after w (fs w) n r (evs ++ [EvReadFile filename]))
    end.
Proof.
  unfold mbind, M_bind, ioutil_ReadFile, or_return. rewrite emit_after.
  change (read_result (after w (fs w) n r evs) filename)
    with (read_result w filename).
  destruct (read_result w filename); reflexivity.
Qed.

Lemma step_deref {A B} (p : option A) (k : A -> M B) (w : World) :
  (deref p ≫= k) w =
    match p with
    | Some a => k a w
    | None => (Panicked nil_dereference, w)
    end.
Proof. destruct p; reflexivity. Qed.

Lemma step_or_return {A B} (wrap : error -> error) (r : result A)
    (k : A -> M B) (w : World) :
  (or_return wrap r ≫= k) w =
    match r with
    | Ok a => k a w
    | Err err => (Failed (wrap err), w)
    end.
Proof. destruct r; reflexivity. Qed.

Lemma step_Now {B} (k : Time -> M B) (w : World) (files : gmap string bytes)
    (n : nat) (r : Rand) (evs : list Event) :
  (time_Now ≫= k) (after w files n r evs) =
    k (clock w (n + ticks w)) (after w files (S n) r (evs ++ [EvNow])).
Proof.
  unfold mbind, M_bind, time_Now. rewrite emit_after. reflexivity.
Qed.

Lemma step_GenerateKey {B} (bits : Z) (wrap : error -> error)
    (k : PrivateKey -> M B) (w : World) (files : gmap string bytes)
    (n : nat) (r : Rand) (evs : list Event) :
  ((rsa_GenerateKey bits ≫= or_return wrap) ≫= k) (after w files n r evs) =
    match GenerateKey r bits with
    | (Ok key, r') => k key (after w files n r' (evs ++ [EvGenerateKey bits]))
    | (Err err, r') =>
        (Failed (wrap err), after w files n r' (evs ++ [EvGenerateKey bits]))
    end.
Proof.
  unfold mbind, M_bind, rsa_GenerateKey, or_return. rewrite emit_after.
  change (rand (after w files n r evs)) with r.
  destruct (GenerateKey r bits) as [[key|err] r']; reflexivity.
Qed.

Lemma step_CreateCertificate {B} (template parent : Certificate)
    (pub : PublicKey) (priv : PrivateKey) (wrap : error -> error)
    (k : bytes -> M B) (w : World) (files : gmap string bytes)
    (n : nat) (r : Rand) (evs : list Event) :
  ((x509_CreateCertificate template parent pub priv ≫= or_return wrap) ≫= k)
    (after w files n r evs) =
    match CreateCertificate r template parent pub priv with
    | (Ok der, r') =>
        k der (after w files n r'
                 (evs ++ [EvCreateCertificate template parent pub priv]))
    | (Err err, r') =>
        (Failed (wrap err),
         after w files n r'
           (evs ++ [EvCreateCertificate template parent pub priv]))
    end.
Proof.
  unfold mbind, M_bind, x509_CreateCertificate, or_return. rewrite emit_after.
  change (rand (after w files n r evs)) with r.
  destruct (CreateCertificate r template parent pub priv) as [[der|err] r'];
    reflexivity.
Qed.

Lemma step_Printf {B} (format : string) (a : list fmtarg) (k : unit -> M B)
    (w : World) (files : gmap string bytes) (n : nat) (r : Rand)
    (evs : list Event) :
  (log_Printf format a ≫= k) (after w files n r evs) =
    k tt (after w files n r (evs ++ [EvLog (Sprintf format a)])).
Proof. unfold mbind, M_bind, log_Printf. rewrite emit_after. reflexivity. Qed.

Lemma step_WriteFile {B} (filename : string) (data : bytes) (perm : Z)
    (wrap : error -> error) (k : unit -> M B) (w : World)
    (files : gmap string bytes) (n : nat) (r : Rand) (evs : list Event) :
  ((ioutil_WriteFile filename data perm ≫= or_return_err wrap) ≫= k)
    (after w files n r evs) =
    match write_error w filename with
    | Some err =>
        (Failed (wrap err),
         after w files n r (evs ++ [EvWriteFile filename data perm]))
    | None =>
        k tt (after w (<[filename := data]> files) n r
                (evs ++ [EvWriteFile filename data perm]))
    end.
Proof.
  unfold mbind, M_bind, ioutil_WriteFile, or_return_err. rewrite emit_after.
  change (write_error (after w files n r evs) filename)
    with (write_error w filename).
  destruct (write_error w filename); reflexivity.
Qed.

Ltac exit_with rule := cbn [fst snd]; eapply rule; eauto.

(** Every run of the body leaves by one of the rules. *)
Lemma RunE_exits (opt : certClusterOptions) (args : list string) (w : World) :
  RunE_exit opt args w (RunE opt args w).1 (RunE opt args w).2.
Proof.
  enough (Hfrom : forall w0, w0 = after w (fs w) 0 (rand w) [] ->
            RunE_exit opt args w (RunE opt args w0).1 (RunE opt args w0).2)
    by (apply Hfrom; symmetry; apply after_start).
  intros w0 ->. unfold RunE.
  rewrite (surjective_pairing (classify args)).
  rewrite step_ReadFile.
  destruct (read_result w (CA.Crt (CA opt))) as [caCrtFile|err] eqn:Hrc;
    [|exit_with exit_read_crt].
  rewrite step_deref.
  destruct (pem_Decode caCrtFile).1 as [caCrtData|] eqn:Hdc;
    [|exit_with exit_nil_crt].
  rewrite step_or_return.
  destruct (x509_ParseCertificate (Bytes caCrtData)) as [caCrt|err] eqn:Hpc;
    [|exit_with exit_parse_crt].
  assert (Hcrt : ca_cert_loaded opt w caCrt) by (red; eauto).
  rewrite step_ReadFile.
  destruct (read_result w (CA.Key (CA opt))) as [caKeyFile|err] eqn:Hrk;
    [|exit_with exit_read_key].
  rewrite step_deref.
  destruct (pem_Decode caKeyFile).1 as [caKeyData|] eqn:Hdk;
    [|exit_with exit_nil_key].
  rewrite step_or_return.
  destruct (x509_ParsePKCS1PrivateKey (Bytes caKeyData)) as [caKey|err] eqn:Hpk;
    [|exit_with exit_parse_key].
  assert (Hkey : ca_key_loaded opt w caKey) by (red; eauto).
  rewrite !step_Now, step_GenerateKey.
  destruct (GenerateKey (rand w) (Out.Bit (Out opt))) as [[key|err] rnd1] eqn:Hgen;
    [|exit_with exit_keygen].
  rewrite step_CreateCertificate.
  match goal with |- context [CreateCertificate ?r ?t ?p ?pb ?pr] =>
    change t with (run_csr opt args w);
    destruct (CreateCertificate r (run_csr opt args w) p pb pr)
      as [[pub|err] rnd] eqn:Hsign end;
    [|exit_with exit_sign].
  assert (Hsigned : signed opt args w caCrt caKey key pub rnd)
    by (red; eauto).
  rewrite step_Printf, step_WriteFile.
  destruct (write_error w (Out.Crt (Out opt))) as [err|] eqn:Hwc;
    [exit_with exit_write_crt|].
  rewrite step_Printf, step_WriteFile.
  destruct (write_error w (Out.Key (Out opt))) as [err|] eqn:Hwk;
    [exit_with exit_write_key|].
  exit_with exit_nil.
Qed.

End Steps.

(** ** The rules determine the run *)
Section Determined.
Context `{lib : GoLib}.

Lemma RunE_exit_det (opt : certClusterOptions) (args : list string) (w : World)
    (o1 o2 : outcome unit) (w1 w2 : World) :
  RunE_exit opt args w o1 w1 -> RunE_exit opt args w o2 w2 ->
  o1 = o2 /\ w1 = w2.
Proof.
  intros H1 H2.
  destruct H1; destruct H2;
    unfold signed, ca_cert_loaded, ca_key_loaded in *;
    repeat match goal with
           | H : exists _, _ |- _ => destruct H
           | H : _ /\ _ |- _ => destruct H
           end;
    try congruence; split; congruence.
Qed.

Lemma RunE_exit_sound (opt : certClusterOptions) (args : list string)
    (w : World) (o : outcome unit) (w' : World) :
  RunE_exit opt args w o w' -> RunE opt args w = (o, w').
Proof.
  intros H.
  destruct (RunE_exit_det _ _ _ _ _ _ _ (RunE_exits opt args w) H) as [Ho Hw].
  destruct (RunE opt args w) as [o0 w0]. cbn [fst snd] in *. congruence.
Qed.

Lemma RunE_inv (opt : certClusterOptions) (args : list string)
    (w : World) (o : outcome unit) (w' : World) :
  RunE opt args w = (o, w') -> RunE_exit opt args w o w'.
Proof.
  intros H. pose proof (RunE_exits opt args w) as He.
  rewrite H in He. exact He.
Qed.

Lemma ca_cert_loaded_unique (opt : certClusterOptions) (w : World)
    (c1 c2 : Certificate) :
  ca_cert_loaded opt w c1 -> ca_cert_loaded opt w c2 -> c1 = c2.
Proof. intros (?&?&?&?&?) (?&?&?&?&?). congruence. Qed.

Lemma ca_key_loaded_unique (opt : certClusterOptions) (w : World)
    (k1 k2 : PrivateKey) :
  ca_key_loaded opt w k1 -> ca_key_loaded opt w k2 -> k1 = k2.
Proof. intros (?&?&?&?&?) (?&?&?&?&?). congruence. Qed.

End Determined.

(** ** Failures ahead of the first write *)
Section EarlyFailure.
Context `{lib : GoLib}.

(** C10. When reading or parsing the CA certificate fails, or reading or
    parsing the CA private key, or generating the key, or signing, the
    body returns an error, the files are what they were, and no write
    was attempted on the way. *)
Theorem early_failure_writes_nothing (opt : certClusterOptions)
    (args : list string) (w : World) :
  early_failure opt args w ->
  exists err w' evs,
    RunE opt args w = (Failed err, w')
    /\ fs w' = fs w
    /\ trace w' = trace w ++ evs
    /\ writes evs = [].
Proof.
  intros [err Hr|f d err Hr Hd Hp|caCrt err Hc Hr|caCrt f d err Hc Hr Hd Hp
         |caCrt caKey err rnd Hc Hk Hg|caCrt caKey key rnd1 err rnd Hc Hk Hg Hs].
  - eexists _, _, _. split; [apply RunE_exit_sound; eapply exit_read_crt; eauto|].
    repeat split.
  - eexists _, _, _. split; [apply RunE_exit_sound; eapply exit_parse_crt; eauto|].
    repeat split.
  - eexists _, _, _. split; [apply RunE_exit_sound; eapply exit_read_key; eauto|].
    repeat split.
  - eexists _, _, _. split; [apply RunE_exit_sound; eapply exit_parse_key; eauto|].
    repeat split.
  - eexists _, _, _. split; [apply RunE_exit_sound; eapply exit_keygen; eauto|].
    repeat split.
  - eexists _, _, _. split; [apply RunE_exit_sound; eapply exit_sign; eauto|].
    repeat split.
Qed.

End EarlyFailure.


(** ** Messages *)

Lemma starts_with_app (part rest : string) :
  starts_with part (part +:+ rest) = true.
Proof.
  induction part as [|c part IH]; simpl; [reflexivity|].
  by rewrite Ascii.eqb_refl, IH.
Qed.

Lemma starts_with_split (part msg : string) :
  starts_with part msg = true -> exists rest, msg = part +:+ rest.
Proof.
  revert msg. induction part as [|c part IH]; intros msg; simpl.
  - intros _. by exists msg.
  - destruct msg as [|d msg]; [discriminate|].
    intros [Hc Hp]%andb_true_iff. apply Ascii.eqb_eq in Hc as ->.
    destruct (IH _ Hp) as [rest ->]. by exists rest.
Qed.

Lemma names_contains (msg part : string) :
  names msg part <-> contains msg part = true.
Proof.
  split.
  - intros (before & rest & ->).
    induction before as [|c before IH].
    + destruct (part +:+ rest) eqn:E; simpl;
        rewrite <- E, starts_with_app; reflexivity.
    + change (String c before +:+ part +:+ rest)
        with (String c (before +:+ part +:+ rest)).
      cbn [contains]. rewrite IH. apply orb_true_r.
  - induction msg as [|c msg IH]; simpl.
    + rewrite orb_false_r. intros [rest E]%starts_with_split.
      by exists "", rest.
    + intros [[rest E]%starts_with_split|Hc]%orb_true_iff.
      * by exists "", rest.
      * destruct (IH Hc) as (before & rest & ->).
        by exists (String c before), rest.
Qed.

Section Messages.
Context `{lib : GoLib}.

Lemma write_crt_message (path : string) (err : error) :
  Error (Errorf "Unable to write certificate file to %v: %#v"
           [VString path; VError err])
  = "Unable to write certificate file to " +:+ path +:+ ": "
      +:+ GoSyntax err +:+ "".
Proof. reflexivity. Qed.

Lemma write_key_message (path : string) (err : error) :
  Error (Errorf "Unable to write private key file to %v: %#v"
           [VString path; VError err])
  = "Unable to write private key file to " +:+ path +:+ ": "
      +:+ GoSyntax err +:+ "".
Proof. reflexivity. Qed.

Lemma read_message (path : string) :
  Error (Errorf "Could not read file: %#v" [VString path])
  = "Could not read file: " +:+ strconv_Quote path +:+ "".
Proof. reflexivity. Qed.

End Messages.

(** ** The two unchecked results of [pem.Decode], and the message of the
    second read *)
Section Slips.
Context `{lib : GoLib}.

(** A CA certificate file without a PEM block: the body panics, having
    read that file and done nothing else. *)
Lemma nil_certificate_block_panics (opt : certClusterOptions)
    (args : list string) (w : World) (caCrtFile : bytes) :
  read_result w (CA.Crt (CA opt)) = Ok caCrtFile ->
  fst (pem_Decode caCrtFile) = None ->
  RunE opt args w
  = (Panicked nil_dereference,
     after w (fs w) 0 (rand w) [EvReadFile (CA.Crt (CA opt))]).
Proof.
  intros Hr Hd. apply RunE_exit_sound. by eapply exit_nil_crt.
Qed.

(** The same for the CA private key file. *)
Lemma nil_key_block_panics (opt : certClusterOptions)
    (args : list string) (w : World) (caCrt : Certificate)
    (caKeyFile : bytes) :
  ca_cert_loaded opt w caCrt ->
  read_result w (CA.Key (CA opt)) = Ok caKeyFile ->
  fst (pem_Decode caKeyFile) = None ->
  RunE opt args w
  = (Panicked nil_dereference,
     after w (fs w) 0 (rand w)
       [EvReadFile (CA.Crt (CA opt)); EvReadFile (CA.Key (CA opt))]).
Proof.
  intros Hc Hr Hd. apply RunE_exit_sound. by eapply exit_nil_key.
Qed.

(** When the CA private key file cannot be read, the message quotes the
    path of the CA certificate file. *)
Lemma key_read_error_message (opt : certClusterOptions)
    (args : list string) (w : World) (caCrt : Certificate) (err : error) :
  ca_cert_loaded opt w caCrt ->
  read_result w (CA.Key (CA opt)) = Err err ->
  exists e w',
    RunE opt args w = (Failed e, w')
    /\ Error e = "Could not read file: " +:+ strconv_Quote (CA.Crt (CA opt)) +:+ "".
Proof.
  intros Hc Hr. eexists _, _.
  split; [apply RunE_exit_sound; by eapply exit_read_key|].
  apply read_message.
Qed.

End Slips.

(** ** The two writes *)
Section Writes.
Context `{lib : GoLib}.

(** C8. Once the certificate is signed, the certificate file is written
    first.  If that write fails, the body returns an error whose message
    names the destination path, and the key file is not written: the
    failed write is the only one, and the files are what they were.  If
    it succeeds and the write of the key fails, the body returns an
    error, and the certificate stays where it was written, the key file
    untouched. *)
Theorem certificate_written_first (opt : certClusterOptions)
    (args : list string) (w : World) (caCrt : Certificate)
    (caKey key : PrivateKey) (pub : bytes) (rnd : Rand) :
  signed opt args w caCrt caKey key pub rnd ->
  let out_crt := Out.Crt (Out opt) in
  let out_key := Out.Key (Out opt) in
  let write_crt := EvWriteFile out_crt (cert_pem pub) mode_0644 in
  let write_key := EvWriteFile out_key (key_pem key) mode_0644 in
  exists o w' evs,
    RunE opt args w = (o, w')
    /\ trace w' = trace w ++ evs
    /\ (writes evs = [write_crt] \/ writes evs = [write_crt; write_key])
    /\ (forall err, write_error w out_crt = Some err ->
          exists e, o = Failed e /\ names (Error e) out_crt
                    /\ writes evs = [write_crt] /\ fs w' = fs w)
    /\ (forall err, write_error w out_crt = None ->
          write_error w out_key = Some err ->
          exists e, o = Failed e /\ names (Error e) out_key
                    /\ writes evs = [write_crt; write_key]
                    /\ fs w' = <[out_crt := cert_pem pub]> (fs w)
                    /\ fs w' !! out_crt = Some (cert_pem pub)
                    /\ fs w' !! out_key = fs w !! out_key).
Proof.
  intros Hs out_crt out_key write_crt write_key.
  destruct (write_error w out_crt) as [e1|] eqn:Hwc;
    [|destruct (write_error w out_key) as [e2|] eqn:Hwk].
  - eexists _, _, _.
    split; [apply RunE_exit_sound; eapply exit_write_crt; eauto|].
    split; [reflexivity|]. split; [left; reflexivity|].
    split; [|discriminate].
    intros err _. eexists. split; [reflexivity|].
    split; [|split; reflexivity].
    rewrite write_crt_message. by eexists _, _.
  - eexists _, _, _.
    split; [apply RunE_exit_sound; eapply exit_write_key; eauto|].
    split; [reflexivity|]. split; [right; reflexivity|].
    split; [discriminate|].
    intros err _ _. eexists. split; [reflexivity|].
    split; [rewrite write_key_message; by eexists _, _|].
    split; [reflexivity|]. split; [reflexivity|]. cbn [fs after].
    split; [apply lookup_insert_eq|].
    apply lookup_insert_ne. intros Heq.
    unfold out_crt, out_key in *. rewrite Heq in Hwc. congruence.
  - eexists _, _, _.
    split; [apply RunE_exit_sound; eapply exit_nil; eauto|].
    split; [reflexivity|]. split; [right; reflexivity|].
    split; discriminate.
Qed.

(** C9. A run that returns nil has written two files, in this order and
    both with mode 0644: the signed certificate as a PEM block of type
    CERTIFICATE at the certificate path, and the PKCS#1 encoding of the
    new private key as a PEM block of type RSA PRIVATE KEY at the key
    path.  Each write replaces whatever the path held. *)
Theorem outputs_are_pem_blocks (opt : certClusterOptions)
    (args : list string) (w w' : World) :
  RunE opt args w = (Returned tt, w') ->
  let out_crt := Out.Crt (Out opt) in
  let out_key := Out.Key (Out opt) in
  exists caCrt caKey key pub rnd evs,
    signed opt args w caCrt caKey key pub rnd
    /\ trace w' = trace w ++ evs
    /\ writes evs =
         [EvWriteFile out_crt
            (pem_EncodeToMemory
               {| Type_ := "CERTIFICATE"; Headers := []; Bytes := pub |})
            mode_0644;
          EvWriteFile out_key
            (pem_EncodeToMemory
               {| Type_ := "RSA PRIVATE KEY"; Headers := [];
                  Bytes := x509_MarshalPKCS1PrivateKey key |})
            mode_0644]
    /\ mode_0644 = 420
    /\ fs w' = <[out_key := key_pem key]> (<[out_crt := cert_pem pub]> (fs w))
    /\ fs w' !! out_key = Some (key_pem key)
    /\ (out_crt <> out_key -> fs w' !! out_crt = Some (cert_pem pub)).
Proof.
  intros Hrun out_crt out_key. apply RunE_inv in Hrun.
  inversion Hrun as [| | | | | | | | | |caCrt caKey key pub rnd Hs Hwc Hwk].
  exists caCrt, caKey, key, pub, rnd, (evs_write_key opt args w caCrt caKey key pub).
  split; [exact Hs|]. split; [reflexivity|]. split; [reflexivity|].
  split; [reflexivity|]. cbn [fs after]. split; [reflexivity|].
  split; [apply lookup_insert_eq|].
  intros Hne. rewrite lookup_insert_ne by (intros E; apply Hne; symmetry; exact E).
  apply lookup_insert_eq.
Qed.

End Writes.

(** ** The template *)
Section Template.
Context `{lib : GoLib}.

(** The one template of a run, [run_csr], is what reaches
    [x509.CreateCertificate], if anything does. *)
Lemma RunE_templates (opt : certClusterOptions) (args : list string)
    (w : World) :
  exists evs,
    trace (RunE opt args w).2 = trace w ++ evs
    /\ (templates evs = [] \/ templates evs = [run_csr opt args w])
    /\ ((RunE opt args w).1 = Returned tt ->
        templates evs = [run_csr opt args w]).
Proof.
  destruct (RunE_exits opt args w);
    (eexists; split; [reflexivity|]; split;
      [first [left; reflexivity|right; reflexivity]
      |first [discriminate|reflexivity]]).
Qed.

(** Once both CA files have loaded and the key is generated, the body
    hands its template over to [x509.CreateCertificate], with the
    parsed CA certificate, the public half of the new key and the
    parsed CA key. *)
Lemma RunE_hands_over_template (opt : certClusterOptions)
    (args : list string) (w : World) (caCrt : Certificate)
    (caKey key : PrivateKey) (rnd1 : Rand) :
  ca_cert_loaded opt w caCrt ->
  ca_key_loaded opt w caKey ->
  GenerateKey (rand w) (Out.Bit (Out opt)) = (Ok key, rnd1) ->
  exists evs,
    trace (RunE opt args w).2 = trace w ++ evs
    /\ templates evs = [run_csr opt args w]
    /\ keygens evs = [EvGenerateKey (Out.Bit (Out opt))]
    /\ In (EvCreateCertificate (run_csr opt args w) caCrt (PublicKey_of key)
             caKey) evs.
Proof.
  intros Hc Hk Hg.
  assert (Hin : forall pub,
    In (EvCreateCertificate (run_csr opt args w) caCrt (PublicKey_of key) caKey)
       (evs_sign opt args w caCrt caKey key)
    /\ In (EvCreateCertificate (run_csr opt args w) caCrt (PublicKey_of key) caKey)
         (evs_write_crt opt args w caCrt caKey key pub)
    /\ In (EvCreateCertificate (run_csr opt args w) caCrt (PublicKey_of key) caKey)
         (evs_write_key opt args w caCrt caKey key pub)).
  { intros pub. unfold evs_write_key, evs_write_crt, evs_sign.
    rewrite !in_app_iff. cbn [In]. tauto. }
  destruct (CreateCertificate rnd1 (run_csr opt args w) caCrt (PublicKey_of key)
              caKey) as [[pub|err] rnd] eqn:Hs.
  - assert (Hsigned : signed opt args w caCrt caKey key pub rnd)
      by (red; eauto).
    destruct (Hin pub) as (_ & Hin1 & Hin2).
    destruct (write_error w (Out.Crt (Out opt))) as [e1|] eqn:Hwc;
      [|destruct (write_error w (Out.Key (Out opt))) as [e2|] eqn:Hwk].
    + rewrite (RunE_exit_sound _ _ _ _ _
                 (exit_write_crt opt args w caCrt caKey key pub rnd e1 Hsigned Hwc)).
      eexists. split; [reflexivity|]. split; [reflexivity|].
      split; [reflexivity|exact Hin1].
    + rewrite (RunE_exit_sound _ _ _ _ _
                 (exit_write_key opt args w caCrt caKey key pub rnd e2 Hsigned
                    Hwc Hwk)).
      eexists. split; [reflexivity|]. split; [reflexivity|].
      split; [reflexivity|exact Hin2].
    + rewrite (RunE_exit_sound _ _ _ _ _
                 (exit_nil opt args w caCrt caKey key pub rnd Hsigned Hwc Hwk)).
      eexists. split; [reflexivity|]. split; [reflexivity|].
      split; [reflexivity|exact Hin2].
  - destruct (Hin []) as (Hin0 & _ & _).
    rewrite (RunE_exit_sound _ _ _ _ _
               (exit_sign opt args w caCrt caKey key rnd1 err rnd Hc Hk Hg Hs)).
    eexists. split; [reflexivity|]. split; [reflexivity|].
    split; [reflexivity|exact Hin0].
Qed.

(** C6. In every run in which both CA files load and the key is
    generated, the body hands exactly one template to
    [x509.CreateCertificate], and that template has: the subject from
    [--out-com] and [--out-org], basic constraints valid and not a CA,
    SHA-512 with RSA, the third reading of the clock in nanoseconds as
    serial number, the six key usages and no other, server and client
    authentication, and the classified arguments as alternative
    names. *)
Theorem template_fields (opt : certClusterOptions) (args : list string)
    (w : World) (caCrt : Certificate) (caKey key : PrivateKey) (rnd1 : Rand) :
  ca_cert_loaded opt w caCrt ->
  ca_key_loaded opt w caKey ->
  GenerateKey (rand w) (Out.Bit (Out opt)) = (Ok key, rnd1) ->
  exists evs csr,
    trace (RunE opt args w).2 = trace w ++ evs
    /\ templates evs = [csr]
    /\ In (EvCreateCertificate csr caCrt (PublicKey_of key) caKey) evs
    /\ Subject csr = {| CommonName := Out.Com (Out opt);
                        Organization := [Out.Org (Out opt)] |}
    /\ BasicConstraintsValid csr = true
    /\ IsCA csr = false
    /\ SignatureAlgorithm_of csr = SHA512WithRSA
    /\ SerialNumber csr = Some (UnixNano (clock w (2 + ticks w)))
    /\ KeyUsage csr =
         Z.lor KeyUsageCertSign (Z.lor KeyUsageDigitalSignature
           (Z.lor KeyUsageKeyAgreement (Z.lor KeyUsageKeyEncipherment
             (Z.lor KeyUsageDataEncipherment KeyUsageContentCommitment))))
    /\ Z.land (KeyUsage csr) KeyUsageCRLSign = 0
    /\ Z.land (KeyUsage csr) KeyUsageEncipherOnly = 0
    /\ Z.land (KeyUsage csr) KeyUsageDecipherOnly = 0
    /\ ExtKeyUsage_of csr = [ExtKeyUsageServerAuth; ExtKeyUsageClientAuth]
    /\ DNSNames csr = (classify args).1
    /\ IPAddresses csr = (classify args).2.
Proof.
  intros Hc Hk Hg.
  destruct (RunE_hands_over_template opt args w caCrt caKey key rnd1 Hc Hk Hg)
    as (evs & Htr & Ht & _ & Hin).
  exists evs, (run_csr opt args w).
  split; [exact Htr|]. split; [exact Ht|]. split; [exact Hin|].
  repeat split.
Qed.

(** C5, as the code has it.  In a run that returns nil, the template
    handed to [x509.CreateCertificate] has the first reading of the
    clock as [NotBefore], and the second reading advanced by ten
    calendar years as [NotAfter].  So [NotAfter] is [NotBefore] plus ten
    calendar years exactly when ten calendar years after the one reading
    and after the other are the same instant, as they are when the two
    readings are the same. *)
Theorem validity_from_two_readings (opt : certClusterOptions)
    (args : list string) (w w' : World) :
  RunE opt args w = (Returned tt, w') ->
  exists evs csr,
    trace w' = trace w ++ evs
    /\ templates evs = [csr]
    /\ NotBefore csr = clock w (ticks w)
    /\ NotAfter csr = AddDate (clock w (S (ticks w))) 10 0 0
    /\ (NotAfter csr = AddDate (NotBefore csr) 10 0 0 <->
        AddDate (clock w (S (ticks w))) 10 0 0
        = AddDate (clock w (ticks w)) 10 0 0)
    /\ (clock w (S (ticks w)) = clock w (ticks w) ->
        NotAfter csr = AddDate (NotBefore csr) 10 0 0).
Proof.
  intros Hrun.
  destruct (RunE_templates opt args w) as (evs & Htr & _ & Ht).
  rewrite Hrun in Htr, Ht. exists evs, (run_csr opt args w).
  split; [exact Htr|]. split; [by apply Ht|].
  split; [reflexivity|]. split; [reflexivity|].
  cbn [run_csr csr_template NotAfter NotBefore].
  split; [reflexivity|]. by intros ->.
Qed.

(** C2.  With a signing operation that does what the specification asks
    of it, a run that returns nil on a CA certificate and the private
    key matching it has written a certificate whose issuer is the CA
    certificate's subject and whose signature verifies against the CA
    certificate's public key. *)
Theorem issued_by_the_ca (opt : certClusterOptions) (args : list string)
    (w w' : World) (caCrt : Certificate) (caKey : PrivateKey) :
  signing_contract ->
  ca_cert_loaded opt w caCrt ->
  ca_key_loaded opt w caKey ->
  PublicKey_in caCrt = Some (PublicKey_of caKey) ->
  RunE opt args w = (Returned tt, w') ->
  exists pub leaf evs,
    trace w' = trace w ++ evs
    /\ templates evs = [run_csr opt args w]
    /\ writes evs !! 0%nat
       = Some (EvWriteFile (Out.Crt (Out opt)) (cert_pem pub) mode_0644)
    /\ x509_ParseCertificate pub = Ok leaf
    /\ Issuer leaf = Subject caCrt
    /\ CheckSignature caCrt (SignatureAlgorithm_of leaf)
         (RawTBSCertificate leaf) (Signature leaf) = None.
Proof.
  intros Hlib Hc Hk Hmatch Hrun. apply RunE_inv in Hrun.
  inversion Hrun as [| | | | | | | | | |caCrt' caKey' key pub rnd Hs Hwc Hwk].
  destruct Hs as (Hc' & Hk' & rnd1 & Hgen & Hsign).
  rewrite <- (ca_cert_loaded_unique _ _ _ _ Hc Hc') in Hsign.
  rewrite <- (ca_key_loaded_unique _ _ _ _ Hk Hk') in Hsign.
  destruct (Hlib _ _ _ _ _ _ _ Hsign) as (leaf & Hparse & _ & _ & Hiss & Hsig).
  exists pub, leaf, (evs_write_key opt args w caCrt' caKey' key pub).
  split; [reflexivity|]. split; [reflexivity|]. split; [reflexivity|].
  split; [exact Hparse|]. split; [exact Hiss|]. by apply Hsig.
Qed.

End Template.

(** * The sample runs *)

Import Sample.

Lemma sample_ca_cert_loaded (files : gmap string bytes) (ro : gset string) :
  files !! "ca.crt" = Some ca_crt_file ->
  ca_cert_loaded opts (world files ro) ca_cert.
Proof.
  intros Hf.
  exists ca_crt_file,
    {| Type_ := "CERTIFICATE"; Headers := []; Bytes := ca_der |}.
  split; [|split; reflexivity].
  unfold read_result. cbn [unreadable fs world opts CA CA.Crt].
  rewrite Hf. reflexivity.
Defined.

Lemma sample_ca_key_loaded (files : gmap string bytes) (ro : gset string) :
  files !! "ca.key" = Some ca_key_file ->
  ca_key_loaded opts (world files ro) ca_key.
Proof.
  intros Hf.
  exists ca_key_file,
    {| Type_ := "RSA PRIVATE KEY"; Headers := []; Bytes := ca_key_der |}.
  split; [|split; reflexivity].
  unfold read_result. cbn [unreadable fs world opts CA CA.Key].
  rewrite Hf. reflexivity.
Defined.

Lemma sample_signed (ro : gset string) :
  signed opts args (world files_ok ro) ca_cert ca_key node_key node_der 2%nat.
Proof.
  split; [by apply sample_ca_cert_loaded|].
  split; [by apply sample_ca_key_loaded|].
  exists 1%nat. split; reflexivity.
Defined.

Lemma sample_run :
  RunE opts args (world files_ok ∅)
  = (Returned tt,
     after (world files_ok ∅)
       (<["cluster.key" := key_pem node_key]>
          (<["cluster.crt" := cert_pem node_der]> files_ok))
       3 2%nat
       (evs_write_key opts args (world files_ok ∅) ca_cert ca_key node_key
          node_der)).
Proof.
  apply RunE_exit_sound.
  apply (exit_nil opts args (world files_ok ∅) ca_cert ca_key node_key node_der
           2%nat (sample_signed ∅)); reflexivity.
Defined.

(** The classifier on a mixed command line: addresses in their 4-byte
    or 16-byte form, the other strings kept as they are, twice if given
    twice. *)
Example classify_sample :
  classify ["10.0.0.5"; "node1.cluster.local"; "::1"; "not a host!";
            "node1.cluster.local"]
  = (["node1.cluster.local"; "not a host!"; "node1.cluster.local"],
     [Some [x0a; x00; x00; x05];
      Some [x00; x00; x00; x00; x00; x00; x00; x00;
            x00; x00; x00; x00; x00; x00; x00; x01]]).
Proof. reflexivity. Qed.

(** The missing organisation of the default command line is reported,
    whatever the key size. *)
Example PreRunE_sample :
  PreRunE opts = None
  /\ PreRunE (with_Bit (-1) opts) = None
  /\ PreRunE {| CA := CA opts;
                Out := {| Out.Bit := 4096; Out.Com := ""; Out.Org := "";
                          Out.Crt := "cluster.crt"; Out.Key := "cluster.key" |} |}
     = Some (errorString "Please provide an organisation name.").
Proof. repeat split. Qed.

(** C10, on a run whose CA private key file is missing. *)
Lemma early_failure_writes_nothing_witness :
  early_failure opts args (world files_no_key ∅)
  /\ exists err w' evs,
       RunE opts args (world files_no_key ∅) = (Failed err, w')
       /\ fs w' = fs (world files_no_key ∅)
       /\ trace w' = trace (world files_no_key ∅) ++ evs
       /\ writes evs = [].
Proof.
  assert (Hearly : early_failure opts args (world files_no_key ∅)).
  { eapply (fail_read_key opts args (world files_no_key ∅) ca_cert).
    - apply sample_ca_cert_loaded. reflexivity.
    - reflexivity. }
  split; [exact Hearly|].
  exact (early_failure_writes_nothing opts args (world files_no_key ∅) Hearly).
Defined.

(** C8, on runs that may not write [cluster.crt], or [cluster.key]. *)
Lemma certificate_written_first_witness :
  signed opts args (world files_ok {["cluster.crt"]}) ca_cert ca_key node_key
    node_der 2%nat
  /\ (exists e w',
        RunE opts args (world files_ok {["cluster.crt"]}) = (Failed e, w')
        /\ names (Error e) "cluster.crt"
        /\ fs w' = files_ok)
  /\ (exists e w',
        RunE opts args (world files_ok {["cluster.key"]}) = (Failed e, w')
        /\ fs w' !! "cluster.crt" = Some (cert_pem node_der)
        /\ fs w' !! "cluster.key" = None).
Proof.
  split; [apply sample_signed|]. split.
  - destruct (certificate_written_first opts args
                (world files_ok {["cluster.crt"]}) ca_cert ca_key node_key
                node_der 2%nat (sample_signed _))
      as (o & w' & evs & Hrun & _ & _ & Hfail & _).
    destruct (Hfail (PathError "open" "cluster.crt" "permission denied") eq_refl)
      as (e & -> & Hnames & _ & Hfs).
    exists e, w'. split; [exact Hrun|]. split; [exact Hnames|exact Hfs].
  - destruct (certificate_written_first opts args
                (world files_ok {["cluster.key"]}) ca_cert ca_key node_key
                node_der 2%nat (sample_signed _))
      as (o & w' & evs & Hrun & _ & _ & _ & Hfail).
    destruct (Hfail (PathError "open" "cluster.key" "permission denied")
                eq_refl eq_refl)
      as (e & -> & _ & _ & _ & Hcrt & Hkey).
    exists e, w'. split; [exact Hrun|]. split; [exact Hcrt|].
    exact (eq_trans Hkey eq_refl).
Defined.

(** C9, on the run of the specification's example. *)
Lemma outputs_are_pem_blocks_witness :
  RunE opts args (world files_ok ∅)
  = (Returned tt, snd (RunE opts args (world files_ok ∅)))
  /\ exists caCrt caKey key pub rnd evs,
       signed opts args (world files_ok ∅) caCrt caKey key pub rnd
       /\ trace (snd (RunE opts args (world files_ok ∅)))
          = trace (world files_ok ∅) ++ evs
       /\ writes evs =
            [EvWriteFile "cluster.crt"
               (pem_EncodeToMemory
                  {| Type_ := "CERTIFICATE"; Headers := []; Bytes := pub |})
               mode_0644;
             EvWriteFile "cluster.key"
               (pem_EncodeToMemory
                  {| Type_ := "RSA PRIVATE KEY"; Headers := [];
                     Bytes := x509_MarshalPKCS1PrivateKey key |})
               mode_0644]
       /\ mode_0644 = 420
       /\ fs (snd (RunE opts args (world files_ok ∅)))
          = <["cluster.key" := key_pem key]>
              (<["cluster.crt" := cert_pem pub]> files_ok)
       /\ fs (snd (RunE opts args (world files_ok ∅))) !! "cluster.key"
          = Some (key_pem key)
       /\ ("cluster.crt" <> "cluster.key" ->
           fs (snd (RunE opts args (world files_ok ∅))) !! "cluster.crt"
           = Some (cert_pem pub)).
Proof.
  assert (Hrun : RunE opts args (world files_ok ∅)
                 = (Returned tt, snd (RunE opts args (world files_ok ∅))))
    by (rewrite sample_run; reflexivity).
  split; [exact Hrun|].
  exact (outputs_are_pem_blocks opts args (world files_ok ∅) _ Hrun).
Defined.

Lemma frozen_signed :
  signed opts args frozen_world ca_cert ca_key node_key node_der 2%nat.
Proof.
  split.
  { exists ca_crt_file,
      {| Type_ := "CERTIFICATE"; Headers := []; Bytes := ca_der |}.
    repeat split. }
  split.
  { exists ca_key_file,
      {| Type_ := "RSA PRIVATE KEY"; Headers := []; Bytes := ca_key_der |}.
    repeat split. }
  exists 1%nat. split; reflexivity.
Defined.

Lemma frozen_run :
  RunE opts args frozen_world
  = (Returned tt, (RunE opts args frozen_world).2).
Proof.
  rewrite (RunE_exit_sound _ _ _ _ _
             (exit_nil opts args frozen_world ca_cert ca_key node_key node_der
                2%nat frozen_signed eq_refl eq_refl)).
  reflexivity.
Defined.

(** C5, on a run whose two readings of the clock are the same instant:
    there the validity is ten calendar years. *)
Lemma validity_from_two_readings_witness :
  RunE opts args frozen_world = (Returned tt, (RunE opts args frozen_world).2)
  /\ clock frozen_world (S (ticks frozen_world))
     = clock frozen_world (ticks frozen_world)
  /\ exists csr,
       templates (trace (RunE opts args frozen_world).2) = [csr]
       /\ NotBefore csr = sample_clock 0
       /\ NotAfter csr = AddDate (NotBefore csr) 10 0 0.
Proof.
  split; [exact frozen_run|]. split; [reflexivity|].
  destruct (validity_from_two_readings opts args frozen_world _ frozen_run)
    as (evs & csr & Htr & Ht & Hnb & _ & _ & Hsame).
  exists csr. split; [exact (eq_trans (f_equal templates Htr) Ht)|].
  split; [exact Hnb|exact (Hsame eq_refl)].
Defined.

(** C6, on the run of the specification's example. *)
Lemma template_fields_witness :
  ca_cert_loaded opts (world files_ok ∅) ca_cert
  /\ ca_key_loaded opts (world files_ok ∅) ca_key
  /\ GenerateKey (rand (world files_ok ∅)) (Out.Bit (Out opts))
     = (Ok node_key, 1%nat)
  /\ exists evs csr,
       trace (RunE opts args (world files_ok ∅)).2 = evs
       /\ templates evs = [csr]
       /\ In (EvCreateCertificate csr ca_cert (PublicKey_of node_key) ca_key) evs
       /\ Subject csr = {| CommonName := "node1"; Organization := ["Acme"] |}
       /\ BasicConstraintsValid csr = true
       /\ IsCA csr = false
       /\ SignatureAlgorithm_of csr = SHA512WithRSA
       /\ SerialNumber csr = Some 1704067200000000200
       /\ KeyUsage csr = 63
       /\ ExtKeyUsage_of csr = [ExtKeyUsageServerAuth; ExtKeyUsageClientAuth]
       /\ DNSNames csr = ["node1.cluster.local"]
       /\ IPAddresses csr = [Some [x0a; x00; x00; x05]].
Proof.
  assert (Hc : ca_cert_loaded opts (world files_ok ∅) ca_cert)
    by exact (sample_ca_cert_loaded files_ok ∅ eq_refl).
  assert (Hk : ca_key_loaded opts (world files_ok ∅) ca_key)
    by exact (sample_ca_key_loaded files_ok ∅ eq_refl).
  assert (Hg : GenerateKey (rand (world files_ok ∅)) (Out.Bit (Out opts))
               = (Ok node_key, 1%nat)) by reflexivity.
  split; [exact Hc|]. split; [exact Hk|]. split; [exact Hg|].
  destruct (template_fields opts args (world files_ok ∅) ca_cert ca_key node_key
              1%nat Hc Hk Hg)
    as (evs & csr & Htr & Ht & Hin & Hsub & Hbc & Hca & Hsa & Hsn & Hku
        & _ & _ & _ & Heku & Hdns & Hips).
  exists evs, csr.
  split; [exact Htr|]. split; [exact Ht|]. split; [exact Hin|].
  split; [exact Hsub|]. split; [exact Hbc|]. split; [exact Hca|].
  split; [exact Hsa|].
  split; [rewrite Hsn; vm_compute; reflexivity|].
  split; [rewrite Hku; vm_compute; reflexivity|].
  split; [exact Heku|].
  split; [rewrite Hdns; vm_compute; reflexivity|].
  rewrite Hips. vm_compute. reflexivity.
Defined.

(** C5 as the specification states it fails on the run of its own
    example: the clock has moved by 100ns between the two readings, and
    the template's validity is ten calendar years and 100ns. *)
Lemma validity_exactly_ten_years_counterexample :
  fst (RunE opts args (world files_ok ∅)) = Returned tt
  /\ templates (trace (snd (RunE opts args (world files_ok ∅))))
     = [run_csr opts args (world files_ok ∅)]
  /\ NotBefore (run_csr opts args (world files_ok ∅))
     = {| unixSec := 1704067200; nsec := 0 |}
  /\ NotAfter (run_csr opts args (world files_ok ∅))
     = {| unixSec := 2019686400; nsec := 100 |}
  /\ AddDate (NotBefore (run_csr opts args (world files_ok ∅))) 10 0 0
     = {| unixSec := 2019686400; nsec := 0 |}
  /\ NotAfter (run_csr opts args (world files_ok ∅))
     <> AddDate (NotBefore (run_csr opts args (world files_ok ∅))) 10 0 0.
Proof.
  rewrite sample_run.
  split; [reflexivity|]. split; [reflexivity|]. split; [reflexivity|].
  split; [vm_compute; reflexivity|]. split; [vm_compute; reflexivity|].
  vm_compute. discriminate.
Qed.

(** The sample signing operation does what the specification asks. *)
Lemma sample_signing_contract : signing_contract.
Proof.
  intros r template parent pub priv der r' Hsign.
  cbn [CreateCertificate lib] in Hsign. unfold sample_CreateCertificate in Hsign.
  destruct (bool_decide (Subject parent = ca_name)) eqn:Hparent;
    [|discriminate Hsign].
  destruct (bool_decide (priv = ca_key)) eqn:Hpriv; [|discriminate Hsign].
  destruct (bool_decide (pub = PublicKey_of node_key)) eqn:Hpub;
    [|discriminate Hsign].
  destruct (bool_decide (Subject template = node_name)) eqn:Htemplate;
    [|discriminate Hsign].
  apply bool_decide_eq_true_1 in Hparent, Hpriv, Hpub, Htemplate.
  injection Hsign as <- <-.
  exists node_cert. split; [reflexivity|].
  split; [by rewrite Htemplate|]. split; [by rewrite Hpub|].
  split; [by rewrite Hparent|].
  intros c Hc. rewrite Hpriv in Hc.
  cbn [CheckSignature lib]. unfold sample_CheckSignature.
  rewrite (bool_decide_eq_true_2 _ Hc). reflexivity.
Defined.

(** C2, on the run of the specification's example. *)
Lemma issued_by_the_ca_witness :
  signing_contract
  /\ ca_cert_loaded opts (world files_ok ∅) ca_cert
  /\ ca_key_loaded opts (world files_ok ∅) ca_key
  /\ PublicKey_in ca_cert = Some (PublicKey_of ca_key)
  /\ RunE opts args (world files_ok ∅)
     = (Returned tt, snd (RunE opts args (world files_ok ∅)))
  /\ exists pub leaf evs,
       trace (snd (RunE opts args (world files_ok ∅)))
       = trace (world files_ok ∅) ++ evs
       /\ templates evs = [run_csr opts args (world files_ok ∅)]
       /\ writes evs !! 0%nat
          = Some (EvWriteFile "cluster.crt" (cert_pem pub) mode_0644)
       /\ x509_ParseCertificate pub = Ok leaf
       /\ Issuer leaf = Subject ca_cert
       /\ CheckSignature ca_cert (SignatureAlgorithm_of leaf)
            (RawTBSCertificate leaf) (Signature leaf) = None.
Proof.
  assert (Hrun : RunE opts args (world files_ok ∅)
                 = (Returned tt, snd (RunE opts args (world files_ok ∅))))
    by (rewrite sample_run; reflexivity).
  assert (Hc : ca_cert_loaded opts (world files_ok ∅) ca_cert)
    by (apply sample_ca_cert_loaded; reflexivity).
  assert (Hk : ca_key_loaded opts (world files_ok ∅) ca_key)
    by (apply sample_ca_key_loaded; reflexivity).
  split; [exact sample_signing_contract|]. split; [exact Hc|].
  split; [exact Hk|]. split; [reflexivity|]. split; [exact Hrun|].
  exact (issued_by_the_ca opts args (world files_ok ∅) _ ca_cert ca_key
           sample_signing_contract Hc Hk eq_refl Hrun).
Defined.

(** C3.  A CA certificate file that can be read and holds no PEM block:
    [pem.Decode] returns a nil block, and the body does not return a
    format error, it panics on [caCrtData.Bytes].  Up to there it has
    read that one file: no key is generated, nothing is written. *)
Theorem missing_pem_block_panics :
  read_result (world files_no_pem ∅) "ca.crt" = Ok (bs "not a certificate")
  /\ fst (pem_Decode (bs "not a certificate")) = None
  /\ RunE opts args (world files_no_pem ∅)
     = (Panicked nil_dereference,
        after (world files_no_pem ∅) files_no_pem 0 0%nat
          [EvReadFile "ca.crt"])
  /\ keygens [EvReadFile "ca.crt"] = []
  /\ writes [EvReadFile "ca.crt"] = [].
Proof.
  split; [reflexivity|]. split; [reflexivity|].
  split; [|split; reflexivity].
  apply RunE_exit_sound.
  apply (exit_nil_crt opts args (world files_no_pem ∅) (bs "not a certificate"));
    reflexivity.
Qed.

(** C7.  The CA private key file [ca.key] cannot be read: the error
    that the body returns names [ca.crt], the CA certificate file, which
    was read without fault, and does not name [ca.key]. *)
Theorem unreadable_key_names_the_certificate :
  read_result (world files_no_key ∅) "ca.crt" = Ok ca_crt_file
  /\ read_result (world files_no_key ∅) "ca.key"
     = Err (PathError "open" "ca.key" "no such file or directory")
  /\ exists w',
       RunE opts args (world files_no_key ∅)
       = (Failed (errorString
                    ("Could not read file: " +:+ quote +:+ "ca.crt" +:+ quote)),
          w')
       /\ names ("Could not read file: " +:+ quote +:+ "ca.crt" +:+ quote) "ca.crt"
       /\ ~ names ("Could not read file: " +:+ quote +:+ "ca.crt" +:+ quote) "ca.key".
Proof.
  split; [reflexivity|]. split; [reflexivity|].
  eexists. split.
  - apply RunE_exit_sound.
    eapply (exit_read_key opts args (world files_no_key ∅) ca_cert).
    + apply sample_ca_cert_loaded. reflexivity.
    + reflexivity.
  - rewrite !names_contains. split; [reflexivity|]. vm_compute. discriminate.
Qed.

(** * More of the command *)

(** ** The classifier *)
Section ClassifierMore.
Context `{lib : GoLib}.

Lemma spec_lists_length (args : list string) :
  (length (spec_dns args) + length (spec_ips args))%nat = length args.
Proof.
  unfold spec_dns, spec_ips.
  induction args as [|v args IH]; [reflexivity|].
  cbn [omap list_omap]. destruct (identify v); cbn [dns_name ip_value length];
    lia.
Qed.

Lemma spec_ips_valid (args : list string) :
  Forall (fun ip => exists b, ip = Some b
                    /\ (length b = 4%nat \/ length b = 16%nat))
    (spec_ips args).
Proof.
  unfold spec_ips.
  induction args as [|v args IH]; [constructor|].
  cbn [omap list_omap]. destruct (identify v) as [b|b|name] eqn:Hid;
    cbn [ip_value]; [constructor; [|exact IH]..|exact IH].
  - exists b. split; [reflexivity|]. left. by apply identify_IPv4 in Hid as [_ ?].
  - exists b. split; [reflexivity|]. right.
    by apply identify_IPv6 in Hid as (_ & _ & ?).
Qed.

(** X1. The loop drops nothing and invents nothing: every argument ends
    in exactly one of the two lists, and every entry of the IP list is a
    non-nil address of 4 or of 16 bytes. *)
Theorem classify_keeps_every_argument (args : list string) :
  (length (classify args).1 + length (classify args).2)%nat = length args
  /\ Forall (fun ip => exists b, ip = Some b
                       /\ (length b = 4%nat \/ length b = 16%nat))
       (classify args).2.
Proof.
  destruct (classify_partition args) as [-> _]. cbn [fst snd].
  split; [apply spec_lists_length|apply spec_ips_valid].
Qed.

(** X2. Classifying two argument lists one after the other gives the
    two results appended, list by list: what an argument becomes does
    not depend on the arguments around it. *)
Theorem classify_app (args1 args2 : list string) :
  classify (args1 ++ args2)
  = ((classify args1).1 ++ (classify args2).1,
     (classify args1).2 ++ (classify args2).2).
Proof.
  unfold classify. rewrite fold_left_app, !classify_from. reflexivity.
Qed.

End ClassifierMore.

(** ** The ways out of the body *)
Section RunMore.
Context `{lib : GoLib}.

Ltac open_signed :=
  unfold signed in *;
  repeat match goal with
         | H : _ /\ _ |- _ => destruct H
         end.

(** X3. The body panics exactly when a CA file that it could read holds
    no PEM block: the certificate file, or, the certificate loaded, the
    private key file.  The panic is the nil dereference, and it comes
    before the clock is read, a key generated or a file written. *)
Theorem RunE_panics_iff (opt : certClusterOptions) (args : list string)
    (w : World) :
  ((exists msg, (RunE opt args w).1 = Panicked msg) <->
     (exists caCrtFile,
        read_result w (CA.Crt (CA opt)) = Ok caCrtFile
        /\ fst (pem_Decode caCrtFile) = None)
     \/ (exists caCrt caKeyFile,
           ca_cert_loaded opt w caCrt
           /\ read_result w (CA.Key (CA opt)) = Ok caKeyFile
           /\ fst (pem_Decode caKeyFile) = None))
  /\ (forall msg, (RunE opt args w).1 = Panicked msg ->
        msg = nil_dereference
        /\ fs (RunE opt args w).2 = fs w
        /\ rand (RunE opt args w).2 = rand w
        /\ ticks (RunE opt args w).2 = ticks w).
Proof.
  split; [split|].
  - destruct (RunE opt args w) as [o w'] eqn:Hrun. apply RunE_inv in Hrun.
    cbn [fst snd]. intros [msg ->].
    inversion Hrun; subst; [left|right]; eauto.
  - intros [(f & Hr & Hd)|(caCrt & f & Hc & Hr & Hd)].
    + rewrite (nil_certificate_block_panics opt args w f Hr Hd). by eexists.
    + rewrite (nil_key_block_panics opt args w caCrt f Hc Hr Hd). by eexists.
  - destruct (RunE opt args w) as [o w'] eqn:Hrun. apply RunE_inv in Hrun.
    cbn [fst snd]. intros msg ->.
    inversion Hrun; subst; repeat split.
Qed.

(** X4. The body returns nil exactly when every step succeeds: both CA
    files load, a key is generated, the template is signed, and both
    output paths can be written. *)
Theorem RunE_returns_nil_iff (opt : certClusterOptions) (args : list string)
    (w : World) :
  (RunE opt args w).1 = Returned tt <->
  exists caCrt caKey key pub rnd,
    signed opt args w caCrt caKey key pub rnd
    /\ write_error w (Out.Crt (Out opt)) = None
    /\ write_error w (Out.Key (Out opt)) = None.
Proof.
  split.
  - destruct (RunE opt args w) as [o w'] eqn:Hrun. apply RunE_inv in Hrun.
    cbn [fst snd]. intros ->. inversion Hrun; subst. eauto 10.
  - intros (caCrt & caKey & key & pub & rnd & Hs & Hwc & Hwk).
    by rewrite (RunE_exit_sound _ _ _ _ _
                  (exit_nil opt args w caCrt caKey key pub rnd Hs Hwc Hwk)).
Qed.

(** X5. Whatever the outcome, the body leaves every file but the two
    output paths as it found it. *)
Theorem RunE_touches_only_outputs (opt : certClusterOptions)
    (args : list string) (w : World) (path : string) :
  path <> Out.Crt (Out opt) ->
  path <> Out.Key (Out opt) ->
  fs (RunE opt args w).2 !! path = fs w !! path.
Proof.
  intros Hc Hk.
  destruct (RunE opt args w) as [o w'] eqn:Hrun. apply RunE_inv in Hrun.
  cbn [fst snd]. inversion Hrun; subst; cbn [fs after]; try reflexivity.
  - by rewrite lookup_insert_ne.
  - by rewrite !lookup_insert_ne.
Qed.

(** X6. Nothing keeps the two output paths apart.  When they are the
    same path, a run that returns nil leaves the private key there: the
    certificate was written first and is replaced, and the files are
    what one write of the key would have left. *)
Theorem same_output_path_keeps_the_key (opt : certClusterOptions)
    (args : list string) (w w' : World) :
  Out.Crt (Out opt) = Out.Key (Out opt) ->
  RunE opt args w = (Returned tt, w') ->
  exists caCrt caKey key pub rnd,
    signed opt args w caCrt caKey key pub rnd
    /\ fs w' !! Out.Crt (Out opt) = Some (key_pem key)
    /\ fs w' = <[Out.Key (Out opt) := key_pem key]> (fs w).
Proof.
  intros Hsame Hrun. apply RunE_inv in Hrun.
  inversion Hrun as [| | | | | | | | | |caCrt caKey key pub rnd Hs Hwc Hwk].
  exists caCrt, caKey, key, pub, rnd. split; [exact Hs|].
  cbn [fs after]. rewrite Hsame. split; [apply lookup_insert_eq|].
  apply insert_insert_eq.
Qed.

(** X7. The body reads the path of the CA certificate first, and the
    path of the CA private key only once the certificate has loaded; it
    makes no other read: one read in all when the certificate does not
    load, these two when it does. *)
Theorem RunE_reads_the_ca_files_only (opt : certClusterOptions)
    (args : list string) (w : World) :
  exists evs,
    trace (RunE opt args w).2 = trace w ++ evs
    /\ ((reads evs = [EvReadFile (CA.Crt (CA opt))]
         /\ ~ exists caCrt, ca_cert_loaded opt w caCrt)
        \/ (reads evs = [EvReadFile (CA.Crt (CA opt));
                         EvReadFile (CA.Key (CA opt))]
            /\ exists caCrt, ca_cert_loaded opt w caCrt)).
Proof.
  destruct (RunE opt args w) as [o w'] eqn:Hrun. apply RunE_inv in Hrun.
  cbn [fst snd].
  inversion Hrun; subst; (eexists; split; [reflexivity|]);
    try (right; split; [reflexivity|]; open_signed; by eauto);
    left; (split; [reflexivity|]); intros (c & f & d & Hr & Hd & Hp);
    congruence.
Qed.

(** X8. A key is generated at most once, with the key size as the flag
    gave it, whatever it is, and exactly when both CA files have
    loaded; the clock has then been read three times.  Otherwise the
    entropy source and the clock are untouched. *)
Theorem key_generated_once_after_loading (opt : certClusterOptions)
    (args : list string) (w : World) :
  exists evs,
    trace (RunE opt args w).2 = trace w ++ evs
    /\ ((keygens evs = []
         /\ rand (RunE opt args w).2 = rand w
         /\ ticks (RunE opt args w).2 = ticks w
         /\ ~ exists caCrt caKey,
               ca_cert_loaded opt w caCrt /\ ca_key_loaded opt w caKey)
        \/ (keygens evs = [EvGenerateKey (Out.Bit (Out opt))]
            /\ ticks (RunE opt args w).2 = (3 + ticks w)%nat
            /\ exists caCrt caKey,
                 ca_cert_loaded opt w caCrt /\ ca_key_loaded opt w caKey)).
Proof.
  destruct (RunE opt args w) as [o w'] eqn:Hrun. apply RunE_inv in Hrun.
  cbn [fst snd].
  inversion Hrun; subst; (eexists; split; [reflexivity|]);
    try (right; split; [reflexivity|]; split; [reflexivity|];
         open_signed; by eauto);
    left; (do 3 (split; [reflexivity|]));
    intros (c & k & Hc & Hk);
    unfold ca_cert_loaded, ca_key_loaded in *;
    repeat match goal with
           | H : exists _, _ |- _ => destruct H
           | H : _ /\ _ |- _ => destruct H
           end; congruence.
Qed.

End RunMore.

(** ** What a run reports *)
Section Reports.
Context `{lib : GoLib}.

Lemma saving_certificate_line (path : string) :
  names (Sprintf "Saving server certificate file into %v..." [VString path])
    path.
Proof. by exists "Saving server certificate file into ", "...". Qed.

Lemma saving_key_line (path : string) :
  names (Sprintf "Saving server private key file into %v..." [VString path])
    path.
Proof. by exists "Saving server private key file into ", "...". Qed.

(** X9. Every write of a run comes right after a log line that names
    the path written to, and asks for mode 0644; the line is logged
    whether or not the write then succeeds. *)
Theorem every_write_is_announced (opt : certClusterOptions)
    (args : list string) (w : World) :
  exists evs,
    trace (RunE opt args w).2 = trace w ++ evs
    /\ forall i path data perm,
         evs !! i = Some (EvWriteFile path data perm) ->
         exists j line,
           i = S j /\ evs !! j = Some (EvLog line) /\ names line path
           /\ perm = mode_0644.
Proof.
  destruct (RunE opt args w) as [o w'] eqn:Hrun. apply RunE_inv in Hrun.
  cbn [fst snd].
  inversion Hrun; subst; (eexists; split; [reflexivity|]);
    intros i path data perm;
    unfold evs_write_key, evs_write_crt, evs_sign, evs_keygen, evs_key, evs_crt;
    cbn [app];
    do 12 (destruct i as [|i];
           [cbn [lookup list_lookup];
            first [discriminate
                  |intros [= <- <- <-]; eexists _, _;
                   (split; [reflexivity|]); (split; [reflexivity|]);
                   split; [first [apply saving_certificate_line
                                 |apply saving_key_line]|reflexivity]]|]);
    cbn [lookup list_lookup]; discriminate.
Qed.

(** X10. A failure to generate the key and a failure to sign are
    reported in the same words: the error is "Certificate generation
    failed: " followed by the Go syntax of the underlying error, and
    says nothing of the step that failed. *)
Theorem generation_and_signing_fail_alike (opt : certClusterOptions)
    (args : list string) (w : World) :
  (forall caCrt caKey err rnd,
     ca_cert_loaded opt w caCrt ->
     ca_key_loaded opt w caKey ->
     GenerateKey (rand w) (Out.Bit (Out opt)) = (Err err, rnd) ->
     (RunE opt args w).1
     = Failed (errorString
                 ("Certificate generation failed: " +:+ GoSyntax err +:+ "")))
  /\ (forall caCrt caKey key rnd1 err rnd,
        ca_cert_loaded opt w caCrt ->
        ca_key_loaded opt w caKey ->
        GenerateKey (rand w) (Out.Bit (Out opt)) = (Ok key, rnd1) ->
        CreateCertificate rnd1 (run_csr opt args w) caCrt (PublicKey_of key)
          caKey = (Err err, rnd) ->
        (RunE opt args w).1
        = Failed (errorString
                    ("Certificate generation failed: " +:+ GoSyntax err +:+ ""))).
Proof.
  split.
  - intros caCrt caKey err rnd Hc Hk Hg.
    by rewrite (RunE_exit_sound _ _ _ _ _
                  (exit_keygen opt args w caCrt caKey err rnd Hc Hk Hg)).
  - intros caCrt caKey key rnd1 err rnd Hc Hk Hg Hs.
    by rewrite (RunE_exit_sound _ _ _ _ _
                  (exit_sign opt args w caCrt caKey key rnd1 err rnd Hc Hk Hg Hs)).
Qed.

(** X11. When the CA certificate file cannot be read, the error returned
    is the same whatever the reason: it quotes the path and drops the
    cause that [ioutil.ReadFile] gave. *)
Theorem read_failure_cause_is_dropped (opt : certClusterOptions)
    (args : list string) (w1 w2 : World) (err1 err2 : error) :
  read_result w1 (CA.Crt (CA opt)) = Err err1 ->
  read_result w2 (CA.Crt (CA opt)) = Err err2 ->
  (RunE opt args w1).1 = (RunE opt args w2).1
  /\ (RunE opt args w1).1
     = Failed (errorString
                 ("Could not read file: " +:+ strconv_Quote (CA.Crt (CA opt))
                    +:+ "")).
Proof.
  intros H1 H2.
  rewrite (RunE_exit_sound _ _ _ _ _ (exit_read_crt opt args w1 err1 H1)).
  rewrite (RunE_exit_sound _ _ _ _ _ (exit_read_crt opt args w2 err2 H2)).
  split; reflexivity.
Qed.

Lemma read_result_frame (w w' : World) (path : string) :
  unreadable w' = unreadable w ->
  fs w' !! path = fs w !! path ->
  read_result w' path = read_result w path.
Proof. unfold read_result. by intros -> ->. Qed.

(** X12. A run that returns nil, with output paths that are not the CA
    paths, leaves the CA material in place.  Run again in the world left
    behind, the body loads the same certificate and key and gets to the
    key generation; and when that succeeds, the template it hands to
    [x509.CreateCertificate], with that certificate and key, is built
    from the next three readings of the clock. *)
Theorem second_run_reloads_the_ca (opt : certClusterOptions)
    (args : list string) (w w' : World) (caCrt : Certificate)
    (caKey : PrivateKey) :
  RunE opt args w = (Returned tt, w') ->
  Out.Crt (Out opt) <> CA.Crt (CA opt) ->
  Out.Crt (Out opt) <> CA.Key (CA opt) ->
  Out.Key (Out opt) <> CA.Crt (CA opt) ->
  Out.Key (Out opt) <> CA.Key (CA opt) ->
  ca_cert_loaded opt w caCrt ->
  ca_key_loaded opt w caKey ->
  ca_cert_loaded opt w' caCrt
  /\ ca_key_loaded opt w' caKey
  /\ (exists evs2,
        trace (RunE opt args w').2 = trace w' ++ evs2
        /\ keygens evs2 = [EvGenerateKey (Out.Bit (Out opt))])
  /\ (forall key2 rnd2,
        GenerateKey (rand w') (Out.Bit (Out opt)) = (Ok key2, rnd2) ->
        exists evs2 csr2,
          trace (RunE opt args w').2 = trace w' ++ evs2
          /\ templates evs2 = [csr2]
          /\ In (EvCreateCertificate csr2 caCrt (PublicKey_of key2) caKey) evs2
          /\ NotBefore csr2 = clock w (3 + ticks w)
          /\ NotAfter csr2 = AddDate (clock w (4 + ticks w)) 10 0 0
          /\ SerialNumber csr2 = Some (UnixNano (clock w (5 + ticks w)))).
Proof.
  intros Hrun Hcc Hck Hkc Hkk (f1 & d1 & Hr1 & Hd1 & Hp1) (f2 & d2 & Hr2 & Hd2 & Hp2).
  apply RunE_inv in Hrun.
  inversion Hrun as [| | | | | | | | | |c k key pub rnd Hs Hwc Hwk]; subst.
  match goal with |- ca_cert_loaded opt ?w1 _ /\ _ => set (w' := w1) end.
  assert (Hc' : ca_cert_loaded opt w' caCrt).
  { exists f1, d1. split; [|by split].
    rewrite <- Hr1. apply read_result_frame; [reflexivity|].
    subst w'. cbn [fs after]. by rewrite !lookup_insert_ne. }
  assert (Hk' : ca_key_loaded opt w' caKey).
  { exists f2, d2. split; [|by split].
    rewrite <- Hr2. apply read_result_frame; [reflexivity|].
    subst w'. cbn [fs after]. by rewrite !lookup_insert_ne. }
  split; [exact Hc'|]. split; [exact Hk'|]. split.
  - destruct (GenerateKey (rand w') (Out.Bit (Out opt))) as [[key2|err] rnd2]
      eqn:Hg.
    + destruct (RunE_hands_over_template opt args w' caCrt caKey key2 rnd2
                  Hc' Hk' Hg) as (evs2 & Htr & _ & Hkg & _).
      by exists evs2.
    + rewrite (RunE_exit_sound _ _ _ _ _
                 (exit_keygen opt args w' caCrt caKey err rnd2 Hc' Hk' Hg)).
      eexists. split; reflexivity.
  - intros key2 rnd2 Hg.
    destruct (RunE_hands_over_template opt args w' caCrt caKey key2 rnd2
                Hc' Hk' Hg) as (evs2 & Htr & Ht & _ & Hin).
    exists evs2, (run_csr opt args w').
    split; [exact Htr|]. split; [exact Ht|]. split; [exact Hin|].
    repeat split.
Qed.

End Reports.

(** ** The flags *)
Section Flags.
Context `{lib : GoLib}.
Variable ParseInt : string -> option Z.

Lemma PreRunE_passes (o : certClusterOptions) :
  CA.Crt (CA o) <> "" -> CA.Key (CA o) <> "" -> Out.Org (Out o) <> "" ->
  Out.Crt (Out o) <> "" -> Out.Key (Out o) <> "" ->
  PreRunE o = None.
Proof.
  intros H1 H2 H3 H4 H5. unfold PreRunE.
  destruct (len_is_0_cases (CA.Crt (CA o))) as [[_ ?]|[-> _]]; [done|].
  destruct (len_is_0_cases (CA.Key (CA o))) as [[_ ?]|[-> _]]; [done|].
  destruct (len_is_0_cases (Out.Org (Out o))) as [[_ ?]|[-> _]]; [done|].
  destruct (len_is_0_cases (Out.Crt (Out o))) as [[_ ?]|[-> _]]; [done|].
  destruct (len_is_0_cases (Out.Key (Out o))) as [[_ ?]|[-> _]]; [done|].
  reflexivity.
Qed.

Lemma PreRunE_wants_Org (o : certClusterOptions) :
  Out.Org (Out o) = "" -> exists e, PreRunE o = Some e.
Proof.
  intros H. unfold PreRunE. rewrite H.
  destruct (len_is_0 (CA.Crt (CA o))); [by eexists|].
  destruct (len_is_0 (CA.Key (CA o))); by eexists.
Qed.

(** What a setting that is accepted has done. *)
Lemma set_flag_Ok (o o' : certClusterOptions) (name value : string) :
  set_flag ParseInt o name value = Ok o' ->
  (exists p, o' = store_string p value o
             /\ (p = Out_Org <-> name = "out-org"))
  \/ (exists n, name = "key-size" /\ ParseInt value = Some n
                /\ o' = with_Bit n o).
Proof.
  unfold set_flag. cbn [List.find registered flag_name].
  destruct (String.eqb_spec "ca-crt" name) as [<-|_];
    [intros [= <-]; left; by exists CA_Crt|].
  destruct (String.eqb_spec "ca-key" name) as [<-|_];
    [intros [= <-]; left; by exists CA_Key|].
  destruct (String.eqb_spec "key-size" name) as [<-|_].
  { destruct (ParseInt value) as [n|]; [|discriminate].
    intros [= <-]. right. by exists n. }
  destruct (String.eqb_spec "out-com" name) as [<-|_];
    [intros [= <-]; left; by exists Out_Com|].
  destruct (String.eqb_spec "out-org" name) as [<-|_];
    [intros [= <-]; left; by exists Out_Org|].
  destruct (String.eqb_spec "out-crt" name) as [<-|_];
    [intros [= <-]; left; by exists Out_Crt|].
  destruct (String.eqb_spec "out-key" name) as [<-|_];
    [intros [= <-]; left; by exists Out_Key|].
  discriminate.
Qed.

Lemma parse_flags_without_org (cl : list (string * string))
    (o o' : certClusterOptions) :
  parse_flags ParseInt o cl = Ok o' ->
  (forall value, ~ In ("out-org", value) cl) ->
  Out.Org (Out o') = Out.Org (Out o).
Proof.
  revert o. induction cl as [|[name value] cl IH]; intros o; cbn [parse_flags].
  - by intros [= <-].
  - destruct (set_flag ParseInt o name value) as [o1|e] eqn:Hset; [|discriminate].
    intros Hp Hno. rewrite (IH o1 Hp) by (intros v Hin; apply (Hno v); by right).
    apply set_flag_Ok in Hset as [(p & -> & Hp_org)|(n & _ & _ & ->)];
      [|reflexivity].
    destruct p; try reflexivity.
    exfalso. apply (Hno value). left. f_equal. by apply Hp_org.
Qed.

Lemma parse_flags_without_size (cl : list (string * string))
    (o o' : certClusterOptions) :
  parse_flags ParseInt o cl = Ok o' ->
  (forall value, ~ In ("key-size", value) cl) ->
  Out.Bit (Out o') = Out.Bit (Out o).
Proof.
  revert o. induction cl as [|[name value] cl IH]; intros o; cbn [parse_flags].
  - by intros [= <-].
  - destruct (set_flag ParseInt o name value) as [o1|e] eqn:Hset; [|discriminate].
    intros Hp Hno. rewrite (IH o1 Hp) by (intros v Hin; apply (Hno v); by right).
    apply set_flag_Ok in Hset as [(p & -> & _)|(n & -> & _ & _)].
    + by destruct p.
    + exfalso. apply (Hno value). by left.
Qed.

Lemma parse_flags_nonempty (cl : list (string * string))
    (o o' : certClusterOptions) :
  parse_flags ParseInt o cl = Ok o' ->
  (forall name value, In (name, value) cl -> value <> "") ->
  CA.Crt (CA o) <> "" -> CA.Key (CA o) <> "" ->
  Out.Crt (Out o) <> "" -> Out.Key (Out o) <> "" ->
  (Out.Org (Out o) <> "" \/ exists value, In ("out-org", value) cl) ->
  CA.Crt (CA o') <> "" /\ CA.Key (CA o') <> "" /\ Out.Org (Out o') <> ""
  /\ Out.Crt (Out o') <> "" /\ Out.Key (Out o') <> "".
Proof.
  revert o. induction cl as [|[name value] cl IH]; intros o; cbn [parse_flags].
  - intros [= <-] _ ? ? ? ? [?|[v []]]. done.
  - destruct (set_flag ParseInt o name value) as [o1|e] eqn:Hset; [|discriminate].
    intros Hp Hne H1 H2 H3 H4 Horg.
    assert (Hv : value <> "") by (apply (Hne name); by left).
    assert (Hne' : forall n v, In (n, v) cl -> v <> "")
      by (intros n v Hin; apply (Hne n); by right).
    apply set_flag_Ok in Hset as [(p & -> & Hp_org)|(n & -> & _ & ->)].
    + apply (IH _ Hp Hne'); try (by destruct p).
      destruct Horg as [Ho|[v [Heq|Hin]]].
      * left. by destruct p.
      * left. injection Heq as E _. apply Hp_org in E. by subst p.
      * right. by exists v.
    + apply (IH _ Hp Hne'); try done.
      destruct Horg as [Ho|[v [Heq|Hin]]].
      * by left.
      * discriminate Heq.
      * right. by exists v.
Qed.

(** X13. Of the flags that [init] registers, the organisation is the
    one that must be given.  Without [--out-org] the precondition check
    fails, whatever else the command line sets; with it, and no empty
    value anywhere, the check passes, every other variable having a
    default; and without [--key-size] the key has 4096 bits. *)
Theorem org_is_the_mandatory_flag (cl : list (string * string))
    (o : certClusterOptions) :
  parse_flags ParseInt init cl = Ok o ->
  ((forall value, ~ In ("out-org", value) cl) -> exists e, PreRunE o = Some e)
  /\ ((forall name value, In (name, value) cl -> value <> "") ->
      (exists value, In ("out-org", value) cl) ->
      PreRunE o = None)
  /\ ((forall value, ~ In ("key-size", value) cl) -> Out.Bit (Out o) = 4096).
Proof.
  intros Hp. split; [|split].
  - intros Hno. apply PreRunE_wants_Org.
    by rewrite (parse_flags_without_org _ _ _ Hp Hno).
  - intros Hne Horg.
    destruct (parse_flags_nonempty _ _ _ Hp Hne) as (?&?&?&?&?);
      try done; [by right|].
    by apply PreRunE_passes.
  - intros Hno. by rewrite (parse_flags_without_size _ _ _ Hp Hno).
Qed.

End Flags.

(** * More sample runs *)

(** X5, on the run of the specification's example: [ca.crt] is as it
    was. *)
Lemma RunE_touches_only_outputs_witness :
  "ca.crt" <> "cluster.crt"
  /\ "ca.crt" <> "cluster.key"
  /\ fs (RunE opts args (world files_ok ∅)).2 !! "ca.crt" = Some ca_crt_file.
Proof.
  split; [discriminate|]. split; [discriminate|].
  rewrite (RunE_touches_only_outputs opts args (world files_ok ∅) "ca.crt");
    [reflexivity|discriminate|discriminate].
Defined.

Lemma one_path_signed :
  signed one_path_opts args (world files_ok ∅) ca_cert ca_key node_key
    node_der 2%nat.
Proof.
  split; [exact (sample_ca_cert_loaded files_ok ∅ eq_refl)|].
  split; [exact (sample_ca_key_loaded files_ok ∅ eq_refl)|].
  exists 1%nat. split; reflexivity.
Defined.

Lemma one_path_run :
  RunE one_path_opts args (world files_ok ∅)
  = (Returned tt, (RunE one_path_opts args (world files_ok ∅)).2).
Proof.
  rewrite (RunE_exit_sound _ _ _ _ _
             (exit_nil one_path_opts args (world files_ok ∅) ca_cert ca_key
                node_key node_der 2%nat one_path_signed eq_refl eq_refl)).
  reflexivity.
Defined.

(** X6, with [cluster.pem] for both outputs. *)
Lemma same_output_path_keeps_the_key_witness :
  Out.Crt (Out one_path_opts) = Out.Key (Out one_path_opts)
  /\ RunE one_path_opts args (world files_ok ∅)
     = (Returned tt, (RunE one_path_opts args (world files_ok ∅)).2)
  /\ exists caCrt caKey key pub rnd,
       signed one_path_opts args (world files_ok ∅) caCrt caKey key pub rnd
       /\ fs (RunE one_path_opts args (world files_ok ∅)).2 !! "cluster.pem"
          = Some (key_pem key)
       /\ fs (RunE one_path_opts args (world files_ok ∅)).2
          = <["cluster.pem" := key_pem key]> files_ok.
Proof.
  split; [reflexivity|]. split; [exact one_path_run|].
  exact (same_output_path_keeps_the_key one_path_opts args (world files_ok ∅) _
           eq_refl one_path_run).
Defined.

(** X11, on a missing [ca.crt] and on one that may not be opened. *)
Lemma read_failure_cause_is_dropped_witness :
  read_result (world ∅ ∅) "ca.crt"
  = Err (PathError "open" "ca.crt" "no such file or directory")
  /\ read_result denied_world "ca.crt"
     = Err (PathError "open" "ca.crt" "permission denied")
  /\ (RunE opts args (world ∅ ∅)).1 = (RunE opts args denied_world).1
  /\ (RunE opts args (world ∅ ∅)).1
     = Failed (errorString
                 ("Could not read file: " +:+ strconv_Quote "ca.crt" +:+ "")).
Proof.
  split; [reflexivity|]. split; [reflexivity|].
  exact (read_failure_cause_is_dropped opts args (world ∅ ∅) denied_world
           (PathError "open" "ca.crt" "no such file or directory")
           (PathError "open" "ca.crt" "permission denied") eq_refl eq_refl).
Defined.

(** X12, on the run of the specification's example, run twice. *)
Lemma second_run_reloads_the_ca_witness :
  RunE opts args (world files_ok ∅)
  = (Returned tt, (RunE opts args (world files_ok ∅)).2)
  /\ GenerateKey (rand (RunE opts args (world files_ok ∅)).2)
       (Out.Bit (Out opts)) = (Ok node_key, 3%nat)
  /\ ca_cert_loaded opts (RunE opts args (world files_ok ∅)).2 ca_cert
  /\ ca_key_loaded opts (RunE opts args (world files_ok ∅)).2 ca_key
  /\ exists evs2 csr2,
       trace (RunE opts args (RunE opts args (world files_ok ∅)).2).2
       = trace (RunE opts args (world files_ok ∅)).2 ++ evs2
       /\ templates evs2 = [csr2]
       /\ In (EvCreateCertificate csr2 ca_cert (PublicKey_of node_key) ca_key)
            evs2
       /\ NotBefore csr2
          = clock (world files_ok ∅) (3 + ticks (world files_ok ∅))
       /\ NotAfter csr2
          = AddDate (clock (world files_ok ∅) (4 + ticks (world files_ok ∅)))
              10 0 0
       /\ SerialNumber csr2
          = Some (UnixNano
                    (clock (world files_ok ∅) (5 + ticks (world files_ok ∅)))).
Proof.
  assert (Hrun : RunE opts args (world files_ok ∅)
                 = (Returned tt, (RunE opts args (world files_ok ∅)).2))
    by (rewrite sample_run; reflexivity).
  assert (Hg : GenerateKey (rand (RunE opts args (world files_ok ∅)).2)
                 (Out.Bit (Out opts)) = (Ok node_key, 3%nat))
    by (rewrite sample_run; reflexivity).
  assert (Hc : ca_cert_loaded opts (world files_ok ∅) ca_cert)
    by exact (sample_ca_cert_loaded files_ok ∅ eq_refl).
  assert (Hk : ca_key_loaded opts (world files_ok ∅) ca_key)
    by exact (sample_ca_key_loaded files_ok ∅ eq_refl).
  assert (H1 : Out.Crt (Out opts) <> CA.Crt (CA opts)) by discriminate.
  assert (H2 : Out.Crt (Out opts) <> CA.Key (CA opts)) by discriminate.
  assert (H3 : Out.Key (Out opts) <> CA.Crt (CA opts)) by discriminate.
  assert (H4 : Out.Key (Out opts) <> CA.Key (CA opts)) by discriminate.
  destruct (second_run_reloads_the_ca opts args (world files_ok ∅) _ ca_cert
              ca_key Hrun H1 H2 H3 H4 Hc Hk) as (Hc' & Hk' & _ & Hsecond).
  split; [exact Hrun|]. split; [exact Hg|]. split; [exact Hc'|].
  split; [exact Hk'|]. exact (Hsecond node_key 3%nat Hg).
Defined.

(** X13, on the command line [--out-org Acme]. *)
Lemma org_is_the_mandatory_flag_witness :
  parse_flags (fun _ => None) init [("out-org", "Acme")]
  = Ok (store_string Out_Org "Acme" init)
  /\ PreRunE (store_string Out_Org "Acme" init) = None
  /\ Out.Bit (Out (store_string Out_Org "Acme" init)) = 4096.
Proof.
  split; [reflexivity|].
  destruct (org_is_the_mandatory_flag (fun _ => None) [("out-org", "Acme")]
              (store_string Out_Org "Acme" init) eq_refl)
    as (_ & Hpass & Hbit).
  split.
  - apply Hpass.
    + intros name value [[= _ <-]|[]]. discriminate.
    + exists "Acme". by left.
  - apply Hbit. intros value [[=]|[]].
Defined.
